(** * nf-scrape: a shallow embedding of the client logic of [src/App.tsx]

    The development follows the source file top-down: JavaScript
    primitives used by the code, the data model ([interface]s), the helper
    functions, the hooks, the [SearchForm] filter and the two fetch
    handlers of [App].  Theorems come after the definitions.

    Conventions.
    - A JavaScript [number] that the code only ever uses as an integer
      (identifiers, seconds, milliseconds rounded with [Math.round],
      counters) is a [Z].  A quotient that need not be an integer is a [Q].
    - A JavaScript string is a [string] holding the UTF-8 bytes of its
      (well-formed) text; one text is part of another exactly when its
      bytes are.  Where a library function needs the Unicode tables of the
      platform (case conversion beyond Basic Latin), the tables are a
      parameter; the white-space characters of [trim] are written out.
    - [try]/[catch] is the [Result] monad below; a React state setter with
      an updater function is the updater applied to the previous state. *)

From Stdlib Require Import ZArith QArith Qround String Ascii List DecimalString Sorted.
From stdpp Require Import gmap strings list.
Import ListNotations.

Close Scope Q_scope.
Open Scope string_scope.

(** ** JavaScript primitives *)

Module JS.

(** Exceptions, by the constructor that built them.  All of them are
    [instanceof Error] and carry a message. *)
Inductive Exn :=
| Error (message : string)
| TypeError (message : string)
| SyntaxError (message : string)
| DOMException (name : string).

Definition message (e : Exn) : string :=
  match e with
  | Error m | TypeError m | SyntaxError m => m
  | DOMException n => n
  end.

Inductive Result (A : Type) :=
| Ok (a : A)
| Throw (e : Exn).
Arguments Ok {A} a.
Arguments Throw {A} e.

Definition bind {A B} (r : Result A) (k : A -> Result B) : Result B :=
  match r with
  | Ok a => k a
  | Throw e => Throw e
  end.

(** [try { body } catch { handler }] *)
Definition try_catch {A} (body : Result A) (handler : Exn -> A) : A :=
  match body with
  | Ok a => a
  | Throw e => handler e
  end.

(** [String(n)] for an integer [n]. *)
Definition toString (n : Z) : string := NilZero.string_of_int (Z.to_int n).

(** [a || b] on strings: the empty string is falsy. *)
Definition or_else (a b : string) : string :=
  match a with
  | EmptyString => b
  | _ => a
  end.

(** Truthiness of a value that is a string or [null]/[undefined]. *)
Definition truthy (s : option string) : bool :=
  match s with
  | Some (String _ _) => true
  | _ => false
  end.

(** [arr.join(sep)] *)
Definition join (sep : string) (l : list string) : string := String.concat sep l.

(** [arr.slice(0, n)] for [n >= 0]. *)
Definition slice_to {A} (n : nat) (l : list A) : list A := firstn n l.

(** [arr.slice(-n)] for [n > 0]: the last [n] elements. *)
Definition slice_last {A} (n : nat) (l : list A) : list A :=
  skipn (length l - n) l.

(** [Math.floor(a / b)] for integers [a] and [b > 0]. *)
Definition floor_div (a b : Z) : Z := (a / b)%Z.

(** [a % b]: the remainder has the sign of the dividend. *)
Definition rem (a b : Z) : Z := Z.rem a b.

(** [Math.round(x)]: the nearest integer, ties towards +infinity. *)
Definition Math_round (x : Q) : Z := Qfloor (x + (1 # 2))%Q.

(** The byte-lowercase of the Fetch standard, under which header names are
    looked up: the bytes of A-Z become those of a-z, all others stay. *)
Definition lower_ascii (c : ascii) : ascii :=
  let n := nat_of_ascii c in
  if (65 <=? n)%nat && (n <=? 90)%nat then ascii_of_nat (n + 32) else c.

Fixpoint byte_lowercase (s : string) : string :=
  match s with
  | EmptyString => EmptyString
  | String c r => String (lower_ascii c) (byte_lowercase r)
  end.

(** Whether a text is Basic Latin throughout. *)
Fixpoint is_ascii (s : string) : bool :=
  match s with
  | EmptyString => true
  | String c r => (nat_of_ascii c <? 128)%nat && is_ascii r
  end.

(** [s.toLowerCase()].  On a Basic Latin text it converts A-Z; on any other
    text it is the Unicode default case conversion, whose tables belong to
    the platform: [unicode_toLowerCase]. *)
Definition toLowerCase (unicode_toLowerCase : string -> string) (s : string) : string :=
  if is_ascii s then byte_lowercase s else unicode_toLowerCase s.

(** [s.startsWith(p)] *)
Fixpoint startsWith (p s : string) : bool :=
  match p, s with
  | EmptyString, _ => true
  | String a p', String b s' => if Ascii.eqb a b then startsWith p' s' else false
  | String _ _, EmptyString => false
  end.

(** [s.includes(p)] *)
Fixpoint includes (s p : string) : bool :=
  startsWith p s ||
  match s with
  | EmptyString => false
  | String _ s' => includes s' p
  end.

(** [arr.includes(x)] on an array of strings. *)
Definition array_includes (l : list string) (x : string) : bool :=
  existsb (String.eqb x) l.

End JS.

(** [Result] is a monad in stdpp's sense, which gives the notation
    [x ← c; k] for sequencing statements that may throw. *)
#[global] Instance Result_ret : MRet JS.Result := @JS.Ok.
#[global] Instance Result_bind : MBind JS.Result := fun A B k r => JS.bind r k.

Definition nl : string := String (ascii_of_nat 10) EmptyString.

(** ** Types *)

Module ContentAdvisoryReason.
Record t := { text : string }.
End ContentAdvisoryReason.

Module ContentAdvisory.
Record t := {
  certificationValue : string;
  boardName : string;
  reasons : option (list ContentAdvisoryReason.t)
}.
End ContentAdvisory.

Module TextEvidence.
Record t := { key : string; text : string }.
End TextEvidence.

(** The fields of [NetflixEntity] that the modelled code reads.  A field read
    through [?.] or guarded by [||] may be missing at run time and is an
    [option]. *)
Module NetflixEntity.
Record t := {
  __typename : string;
  videoId : Z;
  title : string;
  availabilityStartTime : string;
  isAvailable : bool;
  runtimeSec : Z;
  textEvidence : option (list TextEvidence.t);
  latestYear : Z;
  contentAdvisory : option ContentAdvisory.t;
  playbackBadges : option (list string)
}.
End NetflixEntity.

Module NetflixResponse.
Record Data := { unifiedEntities : option (list NetflixEntity.t) }.
Record t := { data : option Data; error : option string }.

(** [result.data?.unifiedEntities], an empty array standing for a missing
    one: the code only reads its length and its first element. *)
Definition entities (r : t) : list NetflixEntity.t :=
  match data r with
  | Some d => default [] (unifiedEntities d)
  | None => []
  end.
End NetflixResponse.

Module SearchHistoryItem.
Record t := { id : string; title : string; timestamp : Z }.
End SearchHistoryItem.

Module RecentSearch.
Record t := { id : string; time : Z }.
End RecentSearch.

Module AnalyticsData.
Record t := {
  totalSearches : Z;
  avgResponseTime : Z;
  searchTimes : list Z;
  recentSearches : list RecentSearch.t
}.
End AnalyticsData.

Module RateLimit.
(** [parseInt] yields [NaN] on a string with no leading integer: [None]. *)
Record t := { remaining : option Z; limit : option Z }.
End RateLimit.

(** ** Constants *)

Module STORAGE_KEYS.
Definition HISTORY := "nf-search-history".
Definition THEME := "nf-theme".
Definition ANALYTICS := "nf-analytics".
End STORAGE_KEYS.

Definition MAX_HISTORY : nat := 20.

Definition QUALITY_CAPABILITIES : list (string * string) :=
  [ ("VIDEO_ULTRA_HD", "Ultra 4K HD");
    ("VIDEO_HD", "HD");
    ("VIDEO_SD", "SD");
    ("VIDEO_DOLBY_VISION", "Dolby Vision");
    ("VIDEO_HDR10_PLUS", "HDR10+");
    ("VIDEO_HDR", "HDR");
    ("AUDIO_DOLBY_ATMOS", "Dolby Atmos");
    ("AUDIO_SPATIAL", "Spatial Audio");
    ("AUDIO_FIVE_DOT_ONE", "5.1 Dolby");
    ("OFFLINE_DOWNLOAD_AVAILABLE", "Downloads") ].

(** ** Helpers *)

Definition formatRuntime (seconds : Z) : string :=
  let hours := JS.floor_div seconds 3600 in
  let minutes := JS.floor_div (JS.rem seconds 3600) 60 in
  if (hours >? 0)%Z
  then JS.toString hours +:+ "h " +:+ JS.toString minutes +:+ "m"
  else JS.toString minutes +:+ "m".

Section MarkdownExport.

(** [formatDate] delegates to [Date.prototype.toLocaleDateString], whose
    output is left to the host; the export is stated for any such
    function. *)
Variable formatDate : string -> string.

Definition exportAsMarkdown (entity : NetflixEntity.t) : string :=
  let badges := default [] (NetflixEntity.playbackBadges entity) in
  let qualities :=
    JS.or_else
      (JS.join ", "
         (map snd (List.filter (fun cap => JS.array_includes badges (fst cap))
                     QUALITY_CAPABILITIES)))
      "None" in
  let advisory := NetflixEntity.contentAdvisory entity in
  "# " +:+ NetflixEntity.title entity +:+ " ("
    +:+ JS.toString (NetflixEntity.latestYear entity) +:+ ")" +:+ nl
  +:+ nl
  +:+ "## Overview" +:+ nl
  +:+ "- **Video ID:** " +:+ JS.toString (NetflixEntity.videoId entity) +:+ nl
  +:+ "- **Type:** " +:+ NetflixEntity.__typename entity +:+ nl
  +:+ "- **Runtime:** " +:+ formatRuntime (NetflixEntity.runtimeSec entity) +:+ nl
  +:+ "- **Available:** "
    +:+ (if NetflixEntity.isAvailable entity then "Yes" else "No") +:+ nl
  +:+ "- **Release Date:** "
    +:+ formatDate (NetflixEntity.availabilityStartTime entity) +:+ nl
  +:+ nl
  +:+ "## Quality" +:+ nl
  +:+ qualities +:+ nl
  +:+ nl
  +:+ "## Content Advisory" +:+ nl
  +:+ "- **Rating:** "
    +:+ JS.or_else (default "" (ContentAdvisory.certificationValue <$> advisory)) "N/A"
    +:+ nl
  +:+ "- **Board:** "
    +:+ JS.or_else (default "" (ContentAdvisory.boardName <$> advisory)) "N/A" +:+ nl
  +:+ JS.or_else
        (default ""
           (JS.join nl
              <$> (map (fun r => "- " +:+ ContentAdvisoryReason.text r)
                     <$> (advisory ≫= ContentAdvisory.reasons))))
        ""
    +:+ nl
  +:+ nl
  +:+ "## Tags" +:+ nl
  +:+ JS.or_else
        (default "" (TextEvidence.text <$> (NetflixEntity.textEvidence entity ≫= head)))
        "None"
    +:+ nl
  +:+ nl
  +:+ "---" +:+ nl
  +:+ "*Exported from Netflix Metadata Explorer*" +:+ nl.

End MarkdownExport.

(** [parseInt(s)] with no radix argument: leading white space is skipped, a
    sign is read, a [0x] prefix selects base 16, and the longest run of
    digits is converted; [None] is [NaN]. *)
Module ParseInt.

Definition is_space (c : ascii) : bool :=
  let n := nat_of_ascii c in
  ((9 <=? n)%nat && (n <=? 13)%nat) || (n =? 32)%nat.

Fixpoint trimStart (s : string) : string :=
  match s with
  | String c r => if is_space c then trimStart r else s
  | EmptyString => s
  end.

Definition digit (c : ascii) : option Z :=
  let n := Z.of_nat (nat_of_ascii c) in
  if (48 <=? n)%Z && (n <=? 57)%Z then Some (n - 48)%Z
  else if (97 <=? n)%Z && (n <=? 122)%Z then Some (n - 87)%Z
  else if (65 <=? n)%Z && (n <=? 90)%Z then Some (n - 55)%Z
  else None.

Fixpoint digits (radix : Z) (s : string) (acc : option Z) : option Z :=
  match s with
  | String c r =>
      match digit c with
      | Some d =>
          if (d <? radix)%Z
          then digits radix r (Some (default 0%Z acc * radix + d)%Z)
          else acc
      | None => acc
      end
  | EmptyString => acc
  end.

Definition unsigned (s : string) : option Z :=
  match s with
  | String "0" (String "x" r) | String "0" (String "X" r) => digits 16 r None
  | _ => digits 10 s None
  end.

Definition parseInt (s : string) : option Z :=
  match trimStart s with
  | String "-" r => Z.opp <$> unsigned r
  | String "+" r => unsigned r
  | r => unsigned r
  end.

End ParseInt.

(** ** The browser's key-value store

    [localStorage] is a string-to-string map.  Access throws when storage is
    disabled for the page, and [setItem] throws when the write would take the
    store past its quota; a throwing [setItem] stores nothing. *)

Module Storage.

Record t := { disabled : bool; quota : nat; items : gmap string string }.

Definition usage (m : gmap string string) : nat :=
  map_fold (fun k v acc => String.length k + String.length v + acc) 0 m.

Definition getItem (st : t) (key : string) : JS.Result (option string) :=
  if disabled st then JS.Throw (JS.DOMException "SecurityError")
  else JS.Ok (items st !! key).

Definition setItem (st : t) (key value : string) : JS.Result t :=
  if disabled st then JS.Throw (JS.DOMException "SecurityError")
  else
    let items' := <[key := value]> (items st) in
    if (quota st <? usage items')%nat
    then JS.Throw (JS.DOMException "QuotaExceededError")
    else JS.Ok {| disabled := disabled st; quota := quota st; items := items' |}.

End Storage.

(** [JSON.parse] and [JSON.stringify] at the type a caller instantiates the
    generic helpers with.  [JSON.parse] throws a [SyntaxError] on malformed
    text; [JSON.stringify] throws a [TypeError] on values it cannot encode. *)
Class Parse (T : Type) := JSON_parse : string -> JS.Result T.
Class Stringify (T : Type) := JSON_stringify : T -> JS.Result string.

Section StorageAdapter.

Context {T : Type}.

(** The body of the [try] block of [getFromStorage]. *)
Definition getFromStorage_try `{Parse T}
    (st : Storage.t) (key : string) (defaultValue : T) : JS.Result T :=
  item ← Storage.getItem st key;
  match item with
  | Some (String c r) => JSON_parse (String c r)
  | _ => JS.Ok defaultValue
  end.

Definition getFromStorage `{Parse T}
    (st : Storage.t) (key : string) (defaultValue : T) : T :=
  JS.try_catch (getFromStorage_try st key defaultValue) (fun _ => defaultValue).

(** The body of the [try] block of [setToStorage]. *)
Definition setToStorage_try `{Stringify T}
    (st : Storage.t) (key : string) (value : T) : JS.Result Storage.t :=
  text ← JSON_stringify value;
  Storage.setItem st key text.

(** The [catch] block is empty: the store is what it was. *)
Definition setToStorage `{Stringify T}
    (st : Storage.t) (key : string) (value : T) : Storage.t :=
  JS.try_catch (setToStorage_try st key value) (fun _ => st).

End StorageAdapter.

(** ** [JSON.stringify] of the two persisted structures *)

Module Json.

Definition dquote : string := String (ascii_of_nat 34) EmptyString.

Definition hex_digit (n : nat) : ascii :=
  if (n <? 10)%nat then ascii_of_nat (48 + n) else ascii_of_nat (87 + n).

Definition escape_char (c : ascii) : string :=
  let n := nat_of_ascii c in
  if (n =? 34)%nat then "\" +:+ dquote
  else if (n =? 92)%nat then "\\"
  else if (n =? 8)%nat then "\b"
  else if (n =? 9)%nat then "\t"
  else if (n =? 10)%nat then "\n"
  else if (n =? 12)%nat then "\f"
  else if (n =? 13)%nat then "\r"
  else if (n <? 32)%nat
       then "\u00" +:+ String (hex_digit (n / 16)) (String (hex_digit (n mod 16)) "")
  else String c "".

Fixpoint escape (s : string) : string :=
  match s with
  | EmptyString => EmptyString
  | String c r => escape_char c +:+ escape r
  end.

Definition str (s : string) : string := dquote +:+ escape s +:+ dquote.
Definition member (name value : string) : string := str name +:+ ":" +:+ value.
Definition object (members : list string) : string := "{" +:+ JS.join "," members +:+ "}".
Definition array (elements : list string) : string := "[" +:+ JS.join "," elements +:+ "]".

Definition historyItem (i : SearchHistoryItem.t) : string :=
  object [ member "id" (str (SearchHistoryItem.id i));
           member "title" (str (SearchHistoryItem.title i));
           member "timestamp" (JS.toString (SearchHistoryItem.timestamp i)) ].

Definition recentSearch (r : RecentSearch.t) : string :=
  object [ member "id" (str (RecentSearch.id r));
           member "time" (JS.toString (RecentSearch.time r)) ].

Definition analyticsData (a : AnalyticsData.t) : string :=
  object [ member "totalSearches" (JS.toString (AnalyticsData.totalSearches a));
           member "avgResponseTime" (JS.toString (AnalyticsData.avgResponseTime a));
           member "searchTimes" (array (map JS.toString (AnalyticsData.searchTimes a)));
           member "recentSearches"
             (array (map recentSearch (AnalyticsData.recentSearches a))) ].

End Json.

#[global] Instance Stringify_history : Stringify (list SearchHistoryItem.t) :=
  fun l => JS.Ok (Json.array (map Json.historyItem l)).
#[global] Instance Stringify_analytics : Stringify AnalyticsData.t :=
  fun a => JS.Ok (Json.analyticsData a).

(** ** The page's address and the session history

    [URLSearchParams] is the ordered list of name-value pairs of the query
    string.  The session history is the list of entries behind the current
    one, the current one, and the entries ahead of it. *)

Module URLSearchParams.

Definition t := list (string * string).

Definition get (name : string) (ps : t) : option string :=
  snd <$> List.find (fun p => String.eqb (fst p) name) ps.

Definition delete (name : string) (ps : t) : t :=
  List.filter (fun p => negb (String.eqb (fst p) name)) ps.

(** The first pair of that name takes the value and the others go; with
    no such pair, one is appended. *)
Fixpoint set (name value : string) (ps : t) : t :=
  match ps with
  | [] => [(name, value)]
  | p :: r =>
      if String.eqb (fst p) name then (name, value) :: delete name r
      else p :: set name value r
  end.

End URLSearchParams.

Module URL.
Record t := { origin_pathname : string; searchParams : URLSearchParams.t; hash : string }.
End URL.

Module History.

Record t := { back : list URL.t; current : URL.t; forward : list URL.t }.

(** [window.history.length] *)
Definition length (h : t) : nat := List.length (back h) + 1 + List.length (forward h).

(** [pushState(state, unused, url)]: a new entry after the current one;
    the entries ahead are dropped. *)
Definition pushState (url : URL.t) (h : t) : t :=
  {| back := current h :: back h; current := url; forward := [] |}.

(** [replaceState(state, unused, url)]: the current entry changes in place. *)
Definition replaceState (url : URL.t) (h : t) : t :=
  {| back := back h; current := url; forward := forward h |}.

End History.

(** ** The metadata endpoint, seen from the client *)

Module Response.
(** [headers] maps a lower-cased header name to its value;
    [json] is what [response.json()] resolves to or rejects with. *)
Record t := {
  ok : bool;
  headers : gmap string string;
  json : JS.Result NetflixResponse.t
}.

(** [response.headers.get(name)]: header names are case-insensitive. *)
Definition headers_get (name : string) (r : t) : option string :=
  headers r !! JS.byte_lowercase name.
End Response.

Module FetchOutcome.
Inductive Reply :=
| NetworkError (message : string)
| Responded (r : Response.t).
Record t := { latency : Q; reply : Reply }.
End FetchOutcome.

(** The endpoint answers a request for a URL, given the URLs requested
    before it. *)
Definition Server := list string -> string -> FetchOutcome.t.

Inductive Toast :=
| toast_success (message : string)
| toast_error (message : string).

(** ** What the handlers act on: the page's environment and React's state *)

Module World.
Record t := {
  localStorage : Storage.t;
  session : History.t;
  requests : list string;
  time : Q;
  timeOrigin : Q;
  toasts : list Toast
}.

Definition set_localStorage (st : Storage.t) (w : t) : t :=
  {| localStorage := st; session := session w; requests := requests w;
     time := time w; timeOrigin := timeOrigin w; toasts := toasts w |}.
Definition set_session (h : History.t) (w : t) : t :=
  {| localStorage := localStorage w; session := h; requests := requests w;
     time := time w; timeOrigin := timeOrigin w; toasts := toasts w |}.
Definition request (url : string) (elapsed : Q) (w : t) : t :=
  {| localStorage := localStorage w; session := session w;
     requests := requests w ++ [url];
     time := (time w + elapsed)%Q; timeOrigin := timeOrigin w; toasts := toasts w |}.
Definition toast (t' : Toast) (w : t) : t :=
  {| localStorage := localStorage w; session := session w; requests := requests w;
     time := time w; timeOrigin := timeOrigin w; toasts := toasts w ++ [t'] |}.

(** [Date.now()] and [performance.now()] *)
Definition Date_now (w : t) : Z := Qfloor (time w).
Definition performance_now (w : t) : Q := (time w - timeOrigin w)%Q.
End World.

Module State.
Record t := {
  data : option NetflixResponse.t;
  comparisonData : list NetflixEntity.t;
  isLoading : bool;
  error : option string;
  rateLimit : RateLimit.t;
  history : list SearchHistoryItem.t;
  analytics : AnalyticsData.t
}.

Definition set_data (x : option NetflixResponse.t) (s : t) : t :=
  {| data := x; comparisonData := comparisonData s; isLoading := isLoading s;
     error := error s; rateLimit := rateLimit s; history := history s;
     analytics := analytics s |}.
Definition set_comparisonData (x : list NetflixEntity.t) (s : t) : t :=
  {| data := data s; comparisonData := x; isLoading := isLoading s;
     error := error s; rateLimit := rateLimit s; history := history s;
     analytics := analytics s |}.
Definition set_isLoading (x : bool) (s : t) : t :=
  {| data := data s; comparisonData := comparisonData s; isLoading := x;
     error := error s; rateLimit := rateLimit s; history := history s;
     analytics := analytics s |}.
Definition set_error (x : option string) (s : t) : t :=
  {| data := data s; comparisonData := comparisonData s; isLoading := isLoading s;
     error := x; rateLimit := rateLimit s; history := history s;
     analytics := analytics s |}.
Definition set_rateLimit (x : RateLimit.t) (s : t) : t :=
  {| data := data s; comparisonData := comparisonData s; isLoading := isLoading s;
     error := error s; rateLimit := x; history := history s;
     analytics := analytics s |}.
Definition set_history (x : list SearchHistoryItem.t) (s : t) : t :=
  {| data := data s; comparisonData := comparisonData s; isLoading := isLoading s;
     error := error s; rateLimit := rateLimit s; history := x;
     analytics := analytics s |}.
Definition set_analytics (x : AnalyticsData.t) (s : t) : t :=
  {| data := data s; comparisonData := comparisonData s; isLoading := isLoading s;
     error := error s; rateLimit := rateLimit s; history := history s;
     analytics := x |}.

(** The initial values of [useState] in [App], the two hooks reading
    theirs from storage with these defaults. *)
Definition initial : t :=
  {| data := None; comparisonData := []; isLoading := false; error := None;
     rateLimit := {| RateLimit.remaining := Some 100%Z; RateLimit.limit := Some 100%Z |};
     history := [];
     analytics := {| AnalyticsData.totalSearches := 0; AnalyticsData.avgResponseTime := 0;
                     AnalyticsData.searchTimes := []; AnalyticsData.recentSearches := [] |} |}.
End State.

(** A statement sequence of a handler: it may throw, and what it did to the
    state and to the environment before throwing stays done. *)
Definition Handler (A : Type) : Type :=
  State.t * World.t -> JS.Result A * (State.t * World.t).

#[global] Instance Handler_ret : MRet Handler := fun A a sw => (JS.Ok a, sw).
#[global] Instance Handler_bind : MBind Handler := fun A B k m sw =>
  match m sw with
  | (JS.Ok a, sw') => k a sw'
  | (JS.Throw e, sw') => (JS.Throw e, sw')
  end.

Module H.
Definition throw {A} (e : JS.Exn) : Handler A := fun sw => (JS.Throw e, sw).
Definition lift {A} (r : JS.Result A) : Handler A := fun sw => (r, sw).
Definition read {A} (f : World.t -> A) : Handler A := fun sw => (JS.Ok (f sw.2), sw).
Definition setState (f : State.t -> State.t) : Handler unit :=
  fun sw => (JS.Ok tt, (f sw.1, sw.2)).
Definition effect (f : World.t -> World.t) : Handler unit :=
  fun sw => (JS.Ok tt, (sw.1, f sw.2)).

(** [try { body } catch (err) { handler(err) } finally { final }] where
    neither [handler] nor [final] throws. *)
Definition try_catch_finally
    (body : Handler unit) (handler : JS.Exn -> State.t * World.t -> State.t * World.t)
    (final : State.t * World.t -> State.t * World.t)
    (sw : State.t * World.t) : State.t * World.t :=
  match body sw with
  | (JS.Ok _, sw') => final sw'
  | (JS.Throw e, sw') => final (handler e sw')
  end.
End H.

(** ** Hooks *)

(** *** [useURLState] *)

Definition getVideoIdFromURL (w : World.t) : string :=
  default "" (URLSearchParams.get "v" (URL.searchParams (History.current (World.session w)))).

Definition setVideoIdToURL (videoId : string) (w : World.t) : World.t :=
  let url := History.current (World.session w) in
  let params :=
    match videoId with
    | String _ _ => URLSearchParams.set "v" videoId (URL.searchParams url)
    | EmptyString => URLSearchParams.delete "v" (URL.searchParams url)
    end in
  let url' := {| URL.origin_pathname := URL.origin_pathname url;
                 URL.searchParams := params; URL.hash := URL.hash url |} in
  World.set_session (History.pushState url' (World.session w)) w.

(** *** [useSearchHistory] *)

(** The value [updated] that the updater passed to [setHistory] computes
    from [prev]. *)
Definition addToHistory_updated (now : Z) (id title : string)
    (prev : list SearchHistoryItem.t) : list SearchHistoryItem.t :=
  let filtered :=
    List.filter (fun item => negb (String.eqb (SearchHistoryItem.id item) id)) prev in
  let newItem := {| SearchHistoryItem.id := id; SearchHistoryItem.title := title;
                    SearchHistoryItem.timestamp := now |} in
  JS.slice_to MAX_HISTORY (newItem :: filtered).

Definition addToHistory (id title : string) : Handler unit :=
  fun '(s, w) =>
    let updated := addToHistory_updated (World.Date_now w) id title (State.history s) in
    let storage := setToStorage (World.localStorage w) STORAGE_KEYS.HISTORY updated in
    (JS.Ok tt, (State.set_history updated s, World.set_localStorage storage w)).

Definition clearHistory : Handler unit :=
  fun '(s, w) =>
    let storage :=
      setToStorage (World.localStorage w) STORAGE_KEYS.HISTORY ([] : list SearchHistoryItem.t) in
    (JS.Ok tt, (State.set_history [] s, World.set_localStorage storage w)).

(** *** [useAnalytics] *)

(** [searchTimes.reduce((a, b) => a + b, 0) / searchTimes.length]; the
    window is never empty where the code divides. *)
Definition average (searchTimes : list Z) : Q :=
  (inject_Z (fold_left Z.add searchTimes 0%Z)
   / inject_Z (Z.of_nat (length searchTimes)))%Q.

Definition trackSearch_updated (id : string) (responseTime : Z)
    (prev : AnalyticsData.t) : AnalyticsData.t :=
  let searchTimes := JS.slice_last 50 (AnalyticsData.searchTimes prev ++ [responseTime]) in
  let avgResponseTime := average searchTimes in
  let recentSearches :=
    JS.slice_to 10 ({| RecentSearch.id := id; RecentSearch.time := responseTime |}
                      :: AnalyticsData.recentSearches prev) in
  {| AnalyticsData.totalSearches := (AnalyticsData.totalSearches prev + 1)%Z;
     AnalyticsData.avgResponseTime := JS.Math_round avgResponseTime;
     AnalyticsData.searchTimes := searchTimes;
     AnalyticsData.recentSearches := recentSearches |}.

Definition trackSearch (id : string) (responseTime : Z) : Handler unit :=
  fun '(s, w) =>
    let updated := trackSearch_updated id responseTime (State.analytics s) in
    let storage := setToStorage (World.localStorage w) STORAGE_KEYS.ANALYTICS updated in
    (JS.Ok tt, (State.set_analytics updated s, World.set_localStorage storage w)).

(** ** [SearchForm]: the autocomplete filter *)

Definition filteredHistory (unicode_toLowerCase : string -> string)
    (history : list SearchHistoryItem.t) (videoId : string) : list SearchHistoryItem.t :=
  List.filter
    (fun item =>
       JS.includes (SearchHistoryItem.id item) videoId
       || JS.includes (JS.toLowerCase unicode_toLowerCase (SearchHistoryItem.title item))
            (JS.toLowerCase unicode_toLowerCase videoId))
    history.

(** ** [App]: the two search handlers *)

Definition metadata_url (videoId : string) : string := "/api/metadata?videoId=" +:+ videoId.

(** [await fetch(url)]: the request is logged, time passes, and the promise
    resolves to a response or rejects with a [TypeError]. *)
Definition fetch (server : Server) (url : string) : Handler Response.t :=
  fun '(s, w) =>
    let outcome := server (World.requests w) url in
    let w' := World.request url (FetchOutcome.latency outcome) w in
    match FetchOutcome.reply outcome with
    | FetchOutcome.NetworkError m => (JS.Throw (JS.TypeError m), (s, w'))
    | FetchOutcome.Responded r => (JS.Ok r, (s, w'))
    end.

Definition on_error (err : JS.Exn) (sw : State.t * World.t) : State.t * World.t :=
  let message := JS.message err in
  (State.set_error (Some message) sw.1, World.toast (toast_error message) sw.2).

Definition stop_loading (sw : State.t * World.t) : State.t * World.t :=
  (State.set_isLoading false sw.1, sw.2).

Definition start_loading (s : State.t) : State.t :=
  State.set_comparisonData []
    (State.set_data None (State.set_error None (State.set_isLoading true s))).

Definition handleSearch_try (server : Server) (videoId : string) (startTime : Q)
    : Handler unit :=
  response ← fetch server (metadata_url videoId);
  let remaining := Response.headers_get "X-RateLimit-Remaining" response in
  let limit := Response.headers_get "X-RateLimit-Limit" response in
  (if JS.truthy remaining && JS.truthy limit
   then H.setState (State.set_rateLimit
                      {| RateLimit.remaining := ParseInt.parseInt (default "" remaining);
                         RateLimit.limit := ParseInt.parseInt (default "" limit) |})
   else mret tt);;
  result ← H.lift (Response.json response);
  (if Response.ok response then mret tt
   else H.throw (JS.Error (JS.or_else (default "" (NetflixResponse.error result))
                             "Failed to fetch metadata")));;
  match NetflixResponse.entities result with
  | [] => H.throw (JS.Error "No content found for this Video ID")
  | entity :: _ =>
      addToHistory videoId (NetflixEntity.title entity);;
      now ← H.read World.performance_now;
      let responseTime := JS.Math_round (now - startTime)%Q in
      trackSearch videoId responseTime;;
      H.setState (State.set_data (Some result));;
      H.effect (World.toast (toast_success ("Found: " +:+ NetflixEntity.title entity)))
  end.

Definition handleSearch (server : Server) (videoId : string)
    (sw : State.t * World.t) : State.t * World.t :=
  let sw := (start_loading sw.1, setVideoIdToURL videoId sw.2) in
  let startTime := World.performance_now sw.2 in
  H.try_catch_finally (handleSearch_try server videoId startTime) on_error stop_loading sw.

(** The [for] loop of [handleBatchSearch] over the identifiers left to
    request, [entities] being the array filled so far. *)
Fixpoint handleBatchSearch_loop (server : Server) (ids : list string)
    (entities : list NetflixEntity.t) : Handler (list NetflixEntity.t) :=
  match ids with
  | [] => mret entities
  | id :: rest =>
      response ← fetch server (metadata_url id);
      result ← H.lift (Response.json response);
      handleBatchSearch_loop server rest
        match NetflixResponse.entities result with
        | entity :: _ => entities ++ [entity]
        | [] => entities
        end
  end.

Definition NONE_FOUND : string := "No content found for any of the provided IDs".

Definition handleBatchSearch_try (server : Server) (ids : list string) (startTime : Q)
    : Handler unit :=
  entities ← handleBatchSearch_loop server (JS.slice_to 4 ids) [];
  (match entities with
   | [] => H.throw (JS.Error NONE_FOUND)
   | _ => mret tt
   end);;
  now ← H.read World.performance_now;
  let responseTime := JS.Math_round (now - startTime)%Q in
  trackSearch (JS.join "," ids) responseTime;;
  H.setState (State.set_comparisonData entities);;
  H.effect (World.toast
              (toast_success ("Comparing " +:+ JS.toString (Z.of_nat (length entities))
                                +:+ " titles"))).

Definition handleBatchSearch (server : Server) (ids : list string)
    (sw : State.t * World.t) : State.t * World.t :=
  let sw := (start_loading sw.1, sw.2) in
  let startTime := World.performance_now sw.2 in
  H.try_catch_finally (handleBatchSearch_try server ids startTime) on_error stop_loading sw.

(** ** More of the JavaScript string library *)

Module JSString.

(** The white space that [trim] removes is the WhiteSpace and
    LineTerminator characters of the language, here by their UTF-8 bytes:
    U+0009..U+000D and U+0020 (one byte); U+00A0 (two bytes); U+1680,
    U+2000..U+200A, U+2028, U+2029, U+202F, U+205F, U+3000 and U+FEFF (three
    bytes). *)
Definition is_space1 (a : nat) : bool :=
  (((9 <=? a) && (a <=? 13)) || (a =? 32))%nat.

Definition is_space2 (a b : nat) : bool := ((a =? 194) && (b =? 160))%nat.

Definition is_space3 (a b c : nat) : bool :=
  (((a =? 225) && (b =? 154) && (c =? 128))
   || ((a =? 226) && (b =? 128)
       && (((128 <=? c) && (c <=? 138)) || (c =? 168) || (c =? 169) || (c =? 175)))
   || ((a =? 226) && (b =? 129) && (c =? 159))
   || ((a =? 227) && (b =? 128) && (c =? 128))
   || ((a =? 239) && (b =? 187) && (c =? 191)))%nat.

(** The text after the white-space character that [s] starts with, if it
    starts with one. *)
Definition strip_space (s : string) : option string :=
  match s with
  | String a r =>
      if is_space1 (nat_of_ascii a) then Some r
      else
        match r with
        | String b r2 =>
            if is_space2 (nat_of_ascii a) (nat_of_ascii b) then Some r2
            else
              match r2 with
              | String c r3 =>
                  if is_space3 (nat_of_ascii a) (nat_of_ascii b) (nat_of_ascii c)
                  then Some r3 else None
              | EmptyString => None
              end
        | EmptyString => None
        end
  | EmptyString => None
  end.

(** [s.trimStart()] *)
Fixpoint trimStart (s : string) : string :=
  match s with
  | String a r =>
      if is_space1 (nat_of_ascii a) then trimStart r
      else
        match r with
        | String b r2 =>
            if is_space2 (nat_of_ascii a) (nat_of_ascii b) then trimStart r2
            else
              match r2 with
              | String c r3 =>
                  if is_space3 (nat_of_ascii a) (nat_of_ascii b) (nat_of_ascii c)
                  then trimStart r3 else s
              | EmptyString => s
              end
        | EmptyString => s
        end
  | EmptyString => s
  end.

(** [s.trimEnd()]: the text up to the first place from which only white
    space follows. *)
Fixpoint trimEnd (s : string) : string :=
  match s with
  | EmptyString => EmptyString
  | String a r =>
      match trimStart s with
      | EmptyString => EmptyString
      | _ => String a (trimEnd r)
      end
  end.

(** [s.trim()] *)
Definition trim (s : string) : string := trimEnd (trimStart s).

(** [s.split(sep)] for a non-empty separator: [skip] counts the characters
    of a separator found that are still to be passed, [piece] is the piece
    read so far. *)
Fixpoint split_from (sep s : string) (skip : nat) (piece : string) : list string :=
  match s with
  | EmptyString => [piece]
  | String c r =>
      match skip with
      | S k => split_from sep r k piece
      | O =>
          if JS.startsWith sep s
          then piece :: split_from sep r (String.length sep - 1) EmptyString
          else split_from sep r 0 (piece +:+ String c EmptyString)
      end
  end.

Definition split (sep s : string) : list string := split_from sep s 0 EmptyString.

(** [s.padStart(n, c)] for a fill string of one character. *)
Fixpoint fill (n : nat) (c : ascii) : string :=
  match n with
  | O => EmptyString
  | S k => String c (fill k c)
  end.

Definition padStart (n : nat) (c : ascii) (s : string) : string :=
  fill (n - String.length s) c +:+ s.

(** [String(x)] for a number that may be [NaN]. *)
Definition number_toString (x : option Z) : string :=
  match x with
  | Some n => JS.toString n
  | None => "NaN"
  end.

End JSString.

(** ** [useCountdown] and [CountdownTimer]

    [target] is the time value of [new Date(targetDate)], [None] for an
    invalid date; [now] is the time value of [new Date()].  Quotients are
    computed exactly. *)

Module TimeLeft.
Record t := {
  days : option Z;
  hours : option Z;
  minutes : option Z;
  seconds : option Z;
  isExpired : bool
}.
End TimeLeft.

(** [x % m] on numbers: the result has the sign of [x]. *)
Definition Q_rem (x m : Q) : Q :=
  let q := (x / m)%Q in
  (x - m * inject_Z (if Qle_bool 0 q then Qfloor q else Qceiling q))%Q.

Definition calculateTimeLeft (target : option Z) (now : Z) : TimeLeft.t :=
  match target with
  | None =>
      {| TimeLeft.days := None; TimeLeft.hours := None; TimeLeft.minutes := None;
         TimeLeft.seconds := None; TimeLeft.isExpired := false |}
  | Some t =>
      let difference := (t - now)%Z in
      if (difference <=? 0)%Z
      then {| TimeLeft.days := Some 0%Z; TimeLeft.hours := Some 0%Z;
              TimeLeft.minutes := Some 0%Z; TimeLeft.seconds := Some 0%Z;
              TimeLeft.isExpired := true |}
      else
        let d := inject_Z difference in
        {| TimeLeft.days := Some (Qfloor (d / inject_Z (1000 * 60 * 60 * 24)));
           TimeLeft.hours := Some (Qfloor (Q_rem (d / inject_Z (1000 * 60 * 60)) 24));
           TimeLeft.minutes := Some (Qfloor (Q_rem (d / 1000 / 60) 60));
           TimeLeft.seconds := Some (Qfloor (Q_rem (d / 1000) 60));
           TimeLeft.isExpired := false |}
  end.

(** [new Date(dateString) > new Date()] *)
Definition isFutureDate (target : option Z) (now : Z) : bool :=
  match target with
  | Some t => (now <? t)%Z
  | None => false
  end.

(** What [CountdownTimer] shows: nothing once expired, else the four
    values, each padded to two characters. *)
Definition CountdownTimer (timeLeft : TimeLeft.t) : option (list string) :=
  if TimeLeft.isExpired timeLeft then None
  else
    let pad x := JSString.padStart 2 "0" (JSString.number_toString x) in
    Some [ pad (TimeLeft.days timeLeft); pad (TimeLeft.hours timeLeft);
           pad (TimeLeft.minutes timeLeft); pad (TimeLeft.seconds timeLeft) ].

(** The countdown of [TitleHeader]: [isFutureDate] is evaluated when the
    header renders, at [now], and the timer's value at a later reading
    [tick] of the clock. *)
Definition TitleHeader_countdown (target : option Z) (now tick : Z) : option (list string) :=
  if isFutureDate target now then CountdownTimer (calculateTimeLeft target tick) else None.

(** ** [useTheme] *)

Inductive Theme := dark | light.

Definition theme_name (t : Theme) : string :=
  match t with
  | dark => "dark"
  | light => "light"
  end.

Definition useTheme_initial `{Parse string} (st : Storage.t) : Theme :=
  let saved := getFromStorage st STORAGE_KEYS.THEME "dark" in
  if String.eqb saved "light" then light else dark.

(** The effect run on every change of the theme: the [data-theme] attribute
    of the document element and the stored preference. *)
Definition useTheme_effect `{Stringify string} (theme : Theme)
    (page : option string * Storage.t) : option string * Storage.t :=
  (Some (theme_name theme), setToStorage page.2 STORAGE_KEYS.THEME (theme_name theme)).

Definition toggleTheme (prev : Theme) : Theme :=
  match prev with
  | dark => light
  | light => dark
  end.

(** ** [useKeyboardShortcuts] *)

Module KeyboardEvent.
Record t := { metaKey : bool; ctrlKey : bool; shiftKey : bool; key : string }.
End KeyboardEvent.

Inductive Shortcut := onFocusSearch | onEscape | onToggleTheme.

(** [handleKeyDown]: whether [preventDefault] was called, and the callbacks
    invoked, in order. *)
Definition handleKeyDown (e : KeyboardEvent.t) : bool * list Shortcut :=
  let modifier := KeyboardEvent.metaKey e || KeyboardEvent.ctrlKey e in
  let focus := modifier && String.eqb (KeyboardEvent.key e) "k" in
  let escape := String.eqb (KeyboardEvent.key e) "Escape" in
  let theme := modifier && KeyboardEvent.shiftKey e && String.eqb (KeyboardEvent.key e) "L" in
  (focus || theme,
   ((if focus then [onFocusSearch] else [])
      ++ (if escape then [onEscape] else [])
      ++ (if theme then [onToggleTheme] else []))%list).

(** ** [SearchForm]: submitting the form *)

Inductive Dispatch :=
| NoDispatch
| onSearch (id : string)
| onBatchSearch (ids : list string).

Definition nonempty (s : string) : bool :=
  match s with
  | EmptyString => false
  | String _ _ => true
  end.

(** [handleSubmit]: what is dispatched, and the [showHistory] flag after
    it (the early return on a blank input leaves the flag as it was). *)
Definition handleSubmit (isBatchMode : bool) (videoId : string) (showHistory : bool)
    : Dispatch * bool :=
  let trimmed := JSString.trim videoId in
  match trimmed with
  | EmptyString => (NoDispatch, showHistory)
  | String _ _ =>
      if isBatchMode || JS.includes trimmed ","
      then
        let ids := List.filter nonempty (map JSString.trim (JSString.split "," trimmed)) in
        match ids with
        | [] => (NoDispatch, false)
        | _ => (onBatchSearch ids, false)
        end
      else (onSearch trimmed, false)
  end.

(** The handler that a submission runs. *)
Definition submit (server : Server) (isBatchMode : bool) (videoId : string)
    (sw : State.t * World.t) : State.t * World.t :=
  match (handleSubmit isBatchMode videoId true).1 with
  | NoDispatch => sw
  | onSearch id => handleSearch server id sw
  | onBatchSearch ids => handleBatchSearch server ids sw
  end.

(** ** [GenreTags] *)

(** The tags shown, or nothing when there is no text evidence. *)
Definition GenreTags (textEvidence : option (list TextEvidence.t)) : option (list string) :=
  match textEvidence with
  | Some (first :: _) => Some (JSString.split ", " (TextEvidence.text first))
  | _ => None
  end.

(** ** [App]: back to the search, and the first render *)

(** [handleBack]; [ui] is the lightbox image, the export menu flag and the
    reset counter. *)
Definition handleBack (ui : option (string * string) * bool * Z) (sw : State.t * World.t)
    : (option (string * string) * bool * Z) * (State.t * World.t) :=
  let s := State.set_error None (State.set_comparisonData [] (State.set_data None sw.1)) in
  ((None, false, (ui.2 + 1)%Z), (s, setVideoIdToURL "" sw.2)).

(** The effect that loads the identifier found in the URL when the page
    opens. *)
Definition App_load (server : Server) (sw : State.t * World.t) : State.t * World.t :=
  let initialVideoId := getVideoIdFromURL sw.2 in
  match initialVideoId with
  | String _ _ => handleSearch server initialVideoId sw
  | EmptyString => sw
  end.

(** ** [copyToClipboard] and [ExportMenu]

    The clipboard takes a text or refuses the write (no permission, no
    focus); [writeText] then rejects. *)

Module Clipboard.
Record t := { permitted : bool; content : option string }.

Definition writeText (text : string) (c : t) : JS.Result t :=
  if permitted c then JS.Ok {| permitted := true; content := Some text |}
  else JS.Throw (JS.DOMException "NotAllowedError").
End Clipboard.

(** [copyToClipboard]: whether the text was written, and the clipboard. *)
Definition copyToClipboard (text : string) (c : Clipboard.t) : bool * Clipboard.t :=
  JS.try_catch (c' ← Clipboard.writeText text c; JS.Ok (true, c')) (fun _ => (false, c)).

Inductive ExportType := json | markdown.

(** [type.toUpperCase()] *)
Definition ExportType_upper (type : ExportType) : string :=
  match type with
  | json => "JSON"
  | markdown => "MARKDOWN"
  end.

Section ExportMenu.

(** [exportAsJSON] is [JSON.stringify(entity, null, 2)] on the whole
    entity; [formatDate] as for the Markdown export. *)
Variable exportAsJSON : NetflixEntity.t -> string.
Variable formatDate : string -> string.

(** The handlers act on the clipboard, the toasts and the flag that keeps
    the menu open; [onClose] clears the flag. *)
Definition handleExport (entity : NetflixEntity.t) (type : ExportType)
    (m : Clipboard.t * list Toast * bool) : Clipboard.t * list Toast * bool :=
  let content :=
    match type with
    | json => exportAsJSON entity
    | markdown => exportAsMarkdown formatDate entity
    end in
  let (success, c) := copyToClipboard content m.1.1 in
  let toasts :=
    if success
    then (m.1.2 ++ [toast_success ("Exported as " +:+ ExportType_upper type)])%list
    else (m.1.2 ++ [toast_error "Failed to export"])%list in
  (c, toasts, false).

Definition handleShare (origin : string) (entity : NetflixEntity.t)
    (m : Clipboard.t * list Toast * bool) : Clipboard.t * list Toast * bool :=
  let url := origin +:+ "?v=" +:+ JS.toString (NetflixEntity.videoId entity) in
  let (success, c) := copyToClipboard url m.1.1 in
  let toasts :=
    if success then (m.1.2 ++ [toast_success "Share link copied"])%list else m.1.2 in
  (c, toasts, false).

End ExportMenu.

(** ** Notions used to state the properties *)

(** The two tests on a history entry's identifier: the one [addToHistory]
    filters with, and its complement. *)
Definition other_id (id : string) (item : SearchHistoryItem.t) : bool :=
  negb (String.eqb (SearchHistoryItem.id item) id).

Definition same_id (id : string) (item : SearchHistoryItem.t) : bool :=
  String.eqb (SearchHistoryItem.id item) id.

(** A run of calls [trackSearch(id, responseTime)], one after the other. *)
Definition trackAll (calls : list (string * Z)) (sw : State.t * World.t)
    : State.t * World.t :=
  fold_left (fun sw call => (trackSearch call.1 call.2 sw).2) calls sw.





(** *** A batch, seen from the endpoint

    What the endpoint would answer to requests for [ids], one after the
    other, from the log [log] of earlier requests on. *)
Fixpoint responses (server : Server) (log : list string) (ids : list string)
    : list FetchOutcome.t :=
  match ids with
  | [] => []
  | id :: rest =>
      server log (metadata_url id)
        :: responses server (log ++ [metadata_url id]) rest
  end.

(** What an answer makes [await fetch(...)] or [await response.json()]
    throw, if anything: a transport failure or an unparseable body. *)
Definition failure (o : FetchOutcome.t) : option JS.Exn :=
  match FetchOutcome.reply o with
  | FetchOutcome.NetworkError m => Some (JS.TypeError m)
  | FetchOutcome.Responded r =>
      match Response.json r with
      | JS.Throw e => Some e
      | JS.Ok _ => None
      end
  end.

(** The entity an answer contributes: the first of its entity list, when
    the body parses and the list is there and not empty. *)
Definition first_entity (o : FetchOutcome.t) : option NetflixEntity.t :=
  match FetchOutcome.reply o with
  | FetchOutcome.Responded r =>
      match Response.json r with
      | JS.Ok result => head (NetflixResponse.entities result)
      | JS.Throw _ => None
      end
  | FetchOutcome.NetworkError _ => None
  end.

(** The first failure among the answers, and the number of answers up to
    and including it (all of them when none fails). *)
Fixpoint batch_failure (outs : list FetchOutcome.t) : option JS.Exn :=
  match outs with
  | [] => None
  | o :: rest =>
      match failure o with
      | Some e => Some e
      | None => batch_failure rest
      end
  end.

Fixpoint answered (outs : list FetchOutcome.t) : nat :=
  match outs with
  | [] => 0
  | o :: rest =>
      match failure o with
      | Some _ => 1
      | None => S (answered rest)
      end
  end.

(** The environment after the requests of a batch: one log entry and one
    latency per request, up to and including the first that fails. *)
Fixpoint batch_world (w : World.t) (ids : list string) (outs : list FetchOutcome.t)
    : World.t :=
  match ids, outs with
  | id :: ids', o :: outs' =>
      let w' := World.request (metadata_url id) (FetchOutcome.latency o) w in
      match failure o with
      | Some _ => w'
      | None => batch_world w' ids' outs'
      end
  | _, _ => w
  end.

(** The batch claim as the specification words it: every identifier of the
    truncated list is requested whatever the earlier ones answered, and the
    batch ends on the aggregate error exactly when no answer carried an
    entity. *)
Definition batch_skips_failures (server : Server) (ids : list string)
    (sw : State.t * World.t) : Prop :=
  let sw' := handleBatchSearch server ids sw in
  World.requests sw'.2 = (World.requests sw.2 ++ map metadata_url (take 4 ids))%list
  /\ (State.error sw'.1 = Some NONE_FOUND
      <-> omap first_entity (responses server (World.requests sw.2) (take 4 ids)) = []).

(** One call of a run, on the analytics snapshot alone. *)
Definition step (a : AnalyticsData.t) (call : string * Z) : AnalyticsData.t :=
  trackSearch_updated call.1 call.2 a.

(** The whole seconds a countdown value stands for. *)
Definition total_seconds (timeLeft : TimeLeft.t) : option Z :=
  d ← TimeLeft.days timeLeft; h ← TimeLeft.hours timeLeft;
  m ← TimeLeft.minutes timeLeft; s ← TimeLeft.seconds timeLeft;
  Some (((d * 24 + h) * 60 + m) * 60 + s)%Z.

(** *** A single search, seen from the endpoint

    The rate-limit state after the headers of a response were looked at. *)
Definition rate_after (response : Response.t) (prev : RateLimit.t) : RateLimit.t :=
  let remaining := Response.headers_get "X-RateLimit-Remaining" response in
  let limit := Response.headers_get "X-RateLimit-Limit" response in
  if JS.truthy remaining && JS.truthy limit
  then {| RateLimit.remaining := ParseInt.parseInt (default "" remaining);
          RateLimit.limit := ParseInt.parseInt (default "" limit) |}
  else prev.

(** How a single search ends on a failure with message [m]: state [s1] is
    the state when the failure is thrown, [w1] the environment. *)
Definition search_failed (m : string) (s1 : State.t) (w1 : World.t) : State.t * World.t :=
  (State.set_isLoading false (State.set_error (Some m) s1),
   World.toast (toast_error m) w1).

(** A history list with the most recent entry first. *)
Definition newest_first (history : list SearchHistoryItem.t) : Prop :=
  StronglySorted
    (fun a b => (SearchHistoryItem.timestamp b <= SearchHistoryItem.timestamp a)%Z) history.

(** The recent-search record of a call. *)
Definition recent_of (call : string * Z) : RecentSearch.t :=
  {| RecentSearch.id := call.1; RecentSearch.time := call.2 |}.

(** An entity with its playback badges replaced. *)
Definition with_badges (badges : option (list string)) (entity : NetflixEntity.t)
    : NetflixEntity.t :=
  {| NetflixEntity.__typename := NetflixEntity.__typename entity;
     NetflixEntity.videoId := NetflixEntity.videoId entity;
     NetflixEntity.title := NetflixEntity.title entity;
     NetflixEntity.availabilityStartTime := NetflixEntity.availabilityStartTime entity;
     NetflixEntity.isAvailable := NetflixEntity.isAvailable entity;
     NetflixEntity.runtimeSec := NetflixEntity.runtimeSec entity;
     NetflixEntity.textEvidence := NetflixEntity.textEvidence entity;
     NetflixEntity.latestYear := NetflixEntity.latestYear entity;
     NetflixEntity.contentAdvisory := NetflixEntity.contentAdvisory entity;
     NetflixEntity.playbackBadges := badges |}.

(** ** Sample data used by the concrete instances below *)

Module Sample.

Definition entity (runtime : Z) : NetflixEntity.t :=
  {| NetflixEntity.__typename := "Movie";
     NetflixEntity.videoId := 80057281;
     NetflixEntity.title := "Stranger Things";
     NetflixEntity.availabilityStartTime := "2016-07-15T07:00:00.000Z";
     NetflixEntity.isAvailable := true;
     NetflixEntity.runtimeSec := runtime;
     NetflixEntity.textEvidence := None;
     NetflixEntity.latestYear := 2016;
     NetflixEntity.contentAdvisory := None;
     NetflixEntity.playbackBadges := Some ["VIDEO_HD"; "AUDIO_SPATIAL"] |}.

Definition formatDate (s : string) : string := "Jul 15, 2016".

Definition storage : Storage.t :=
  {| Storage.disabled := false; Storage.quota := 4000; Storage.items := ∅ |}.

Definition url : URL.t :=
  {| URL.origin_pathname := "https://nf.example/"; URL.searchParams := [];
     URL.hash := "" |}.

Definition world : World.t :=
  {| World.localStorage := storage;
     World.session := {| History.back := []; History.current := url;
                         History.forward := [] |};
     World.requests := [];
     World.time := 1700000000000 # 1;
     World.timeOrigin := 1699999990000 # 1;
     World.toasts := [] |}.

Definition item (n : nat) : SearchHistoryItem.t :=
  {| SearchHistoryItem.id := JS.toString (Z.of_nat n);
     SearchHistoryItem.title := "Title " +:+ JS.toString (Z.of_nat n);
     SearchHistoryItem.timestamp := 1699999000000 + Z.of_nat n |}.

(** Twenty entries, identifiers 20 down to 1, newest first. *)
Definition full_history : list SearchHistoryItem.t := map item (rev (seq 1 20)).

Definition full_state : State.t := State.set_history full_history State.initial.

(** Fifty-one calls: a sample of 7 ms, forty-nine of 0 ms and one of 1 ms. *)
Definition calls_one : list (string * Z) :=
  ("80057281", 7%Z) :: repeat ("80057281", 0%Z) 49 ++ [("81767635", 1%Z)].

(** [JSON.parse] and [JSON.stringify] at type [string], for the texts of
    strings that need no escape: the theme preference is stored this way. *)
Fixpoint plain_body (s : string) : option string :=
  match s with
  | EmptyString => None
  | String c EmptyString => if Ascii.eqb c (ascii_of_nat 34) then Some "" else None
  | String c r =>
      if Ascii.eqb c (ascii_of_nat 34) || Ascii.eqb c (ascii_of_nat 92)
         || (nat_of_ascii c <? 32)%nat
      then None
      else String c <$> plain_body r
  end.

Definition parse_string : Parse string := fun s =>
  match s with
  | String c r =>
      match (if Ascii.eqb c (ascii_of_nat 34) then plain_body r else None) with
      | Some body => JS.Ok body
      | None => JS.Throw (JS.SyntaxError "Unexpected token")
      end
  | EmptyString => JS.Throw (JS.SyntaxError "Unexpected end of JSON input")
  end.

Definition stringify_string : Stringify string := fun s => JS.Ok (Json.str s).

(** A store holding a well-formed and a truncated theme preference. *)
Definition storage_light : Storage.t :=
  {| Storage.disabled := false; Storage.quota := 40;
     Storage.items := {[ STORAGE_KEYS.THEME := Json.str "light" ]} |}.

Definition storage_garbled : Storage.t :=
  {| Storage.disabled := false; Storage.quota := 40;
     Storage.items := {[ STORAGE_KEYS.THEME := Json.dquote +:+ "lig" ]} |}.

(** The Unicode conversion to lower case cut down to Basic Latin and the
    Latin-1 letters (U+00C0..U+00DE but the sign U+00D7, two bytes led by
    195), enough for the sample titles. *)
Fixpoint latin1_lower (after_lead : bool) (s : string) : string :=
  match s with
  | EmptyString => EmptyString
  | String c r =>
      let n := nat_of_ascii c in
      if after_lead
      then String (if (128 <=? n)%nat && (n <=? 158)%nat && negb (n =? 151)%nat
                   then ascii_of_nat (n + 32) else c)
             (latin1_lower false r)
      else String (JS.lower_ascii c) (latin1_lower (n =? 195)%nat r)
  end.

Definition latin1_toLowerCase : string -> string := latin1_lower false.

Definition elite : SearchHistoryItem.t :=
  {| SearchHistoryItem.id := "80197526"; SearchHistoryItem.title := "ÉLITE";
     SearchHistoryItem.timestamp := 4 |}.

Definition stranger_things : SearchHistoryItem.t :=
  {| SearchHistoryItem.id := "80057281"; SearchHistoryItem.title := "Stranger Things";
     SearchHistoryItem.timestamp := 3 |}.
Definition night_agent : SearchHistoryItem.t :=
  {| SearchHistoryItem.id := "81767635"; SearchHistoryItem.title := "The Night Agent";
     SearchHistoryItem.timestamp := 2 |}.
Definition abc_of_film : SearchHistoryItem.t :=
  {| SearchHistoryItem.id := "ABC"; SearchHistoryItem.title := "abc of film";
     SearchHistoryItem.timestamp := 1 |}.

(** An endpoint that knows every title, answers in 120 ms and counts the
    requests down from a limit of 100. *)
Definition found (url : string) : NetflixResponse.t :=
  {| NetflixResponse.data :=
       Some {| NetflixResponse.unifiedEntities :=
                 Some [ {| NetflixEntity.__typename := "Movie";
                           NetflixEntity.videoId := 0;
                           NetflixEntity.title := "Title of " +:+ url;
                           NetflixEntity.availabilityStartTime := "";
                           NetflixEntity.isAvailable := true;
                           NetflixEntity.runtimeSec := 5400;
                           NetflixEntity.textEvidence := None;
                           NetflixEntity.latestYear := 2016;
                           NetflixEntity.contentAdvisory := None;
                           NetflixEntity.playbackBadges := None |} ] |};
     NetflixResponse.error := None |}.

Definition rate_headers (log : list string) : gmap string string :=
  {[ "x-ratelimit-remaining" := JS.toString (99 - Z.of_nat (length log));
     "x-ratelimit-limit" := "100" ]}.

Definition server_ok : Server := fun log url =>
  {| FetchOutcome.latency := 120 # 1;
     FetchOutcome.reply :=
       FetchOutcome.Responded
         {| Response.ok := true; Response.headers := rate_headers log;
            Response.json := JS.Ok (found url) |} |}.

(** The same endpoint behind a proxy that answers the request for
    identifier A with an HTML error page. *)
Definition server_garbled_first : Server := fun log url =>
  if String.eqb url (metadata_url "A")
  then {| FetchOutcome.latency := 30 # 1;
          FetchOutcome.reply :=
            FetchOutcome.Responded
              {| Response.ok := false; Response.headers := ∅;
                 Response.json :=
                   JS.Throw (JS.SyntaxError "Unexpected token < in JSON at position 0") |} |}
  else server_ok log url.

(** An endpoint that knows no title. *)
Definition server_empty : Server := fun log url =>
  {| FetchOutcome.latency := 80 # 1;
     FetchOutcome.reply :=
       FetchOutcome.Responded
         {| Response.ok := true; Response.headers := rate_headers log;
            Response.json :=
              JS.Ok {| NetflixResponse.data :=
                         Some {| NetflixResponse.unifiedEntities := Some [] |};
                       NetflixResponse.error := None |} |} |}.

(** The endpoint refusing the request for identifier A with an error
    body and a non-success status. *)
Definition server_refuses_first : Server := fun log url =>
  if String.eqb url (metadata_url "A")
  then {| FetchOutcome.latency := 30 # 1;
          FetchOutcome.reply :=
            FetchOutcome.Responded
              {| Response.ok := false; Response.headers := rate_headers log;
                 Response.json :=
                   JS.Ok {| NetflixResponse.data := None;
                            NetflixResponse.error := Some "Invalid video ID" |} |} |}
  else server_ok log url.

(** The endpoint answering with a server error: once with a message,
    once with an empty body object, once with an error status on a body
    that carries an entity all the same. *)
Definition server_error (message : option string) : Server := fun log url =>
  {| FetchOutcome.latency := 45 # 1;
     FetchOutcome.reply :=
       FetchOutcome.Responded
         {| Response.ok := false; Response.headers := rate_headers log;
            Response.json :=
              JS.Ok {| NetflixResponse.data := None;
                       NetflixResponse.error := message |} |} |}.

Definition server_error_with_entity : Server := fun log url =>
  {| FetchOutcome.latency := 45 # 1;
     FetchOutcome.reply :=
       FetchOutcome.Responded
         {| Response.ok := false; Response.headers := ∅;
            Response.json := JS.Ok (found url) |} |}.

Definition server_offline : Server := fun log url =>
  {| FetchOutcome.latency := 5 # 1;
     FetchOutcome.reply := FetchOutcome.NetworkError "Failed to fetch" |}.

End Sample.

(** * Properties *)

(** ** Strings *)

Lemma append_cons (x : ascii) (a b : string) : String x a +:+ b = String x (a +:+ b).
Proof. reflexivity. Qed.

Lemma append_assoc (a b c : string) : (a +:+ b) +:+ c = a +:+ (b +:+ c).
Proof.
  induction a as [|x a IH]; [reflexivity|].
  rewrite !append_cons. f_equal. exact IH.
Qed.

(** ** [formatRuntime] and the Markdown export *)

Lemma formatRuntime_hours (seconds : Z) :
  (3600 <= seconds)%Z ->
  formatRuntime seconds =
    JS.toString (seconds / 3600) +:+ "h "
      +:+ JS.toString (seconds mod 3600 / 60) +:+ "m".
Proof.
  intros Hs. unfold formatRuntime, JS.floor_div, JS.rem.
  rewrite Z.rem_mod_nonneg by lia.
  assert (0 < seconds / 3600)%Z by (apply Z.div_str_pos; lia).
  destruct (Z.gtb_spec (seconds / 3600) 0); [reflexivity | lia].
Qed.

Lemma formatRuntime_minutes (seconds : Z) :
  (0 <= seconds < 3600)%Z ->
  formatRuntime seconds = JS.toString (seconds / 60) +:+ "m".
Proof.
  intros Hs. unfold formatRuntime, JS.floor_div, JS.rem.
  rewrite Z.rem_mod_nonneg by lia.
  rewrite (Z.div_small seconds 3600), (Z.mod_small seconds 3600) by lia.
  reflexivity.
Qed.

(** The export is the lines up to the type, the runtime line, and the rest. *)
Lemma exportAsMarkdown_runtime_line (formatDate : string -> string) (entity : NetflixEntity.t) :
  exists rest,
    exportAsMarkdown formatDate entity =
      ("# " +:+ NetflixEntity.title entity +:+ " ("
         +:+ JS.toString (NetflixEntity.latestYear entity) +:+ ")" +:+ nl
         +:+ nl
         +:+ "## Overview" +:+ nl
         +:+ "- **Video ID:** " +:+ JS.toString (NetflixEntity.videoId entity) +:+ nl
         +:+ "- **Type:** " +:+ NetflixEntity.__typename entity +:+ nl)
      +:+ "- **Runtime:** " +:+ formatRuntime (NetflixEntity.runtimeSec entity) +:+ nl
      +:+ rest.
Proof.
  eexists. unfold exportAsMarkdown. rewrite !append_assoc. reflexivity.
Qed.

(** C8. The runtime line of the Markdown export shows whole hours and whole
    leftover minutes as "Hh Mm" from one hour on and whole minutes as "Mm"
    below one hour; 5400 seconds give "1h 30m" and 125 seconds give "2m". *)
Theorem C8_markdown_runtime (formatDate : string -> string) (entity : NetflixEntity.t) :
  let seconds := NetflixEntity.runtimeSec entity in
  exists header rest,
    exportAsMarkdown formatDate entity =
      header +:+ "- **Runtime:** " +:+ formatRuntime seconds +:+ nl +:+ rest
    /\ ((3600 <= seconds)%Z ->
        formatRuntime seconds =
          JS.toString (seconds / 3600) +:+ "h "
            +:+ JS.toString (seconds mod 3600 / 60) +:+ "m")
    /\ ((0 <= seconds < 3600)%Z ->
        formatRuntime seconds = JS.toString (seconds / 60) +:+ "m")
    /\ (seconds = 5400%Z -> formatRuntime seconds = "1h 30m")
    /\ (seconds = 125%Z -> formatRuntime seconds = "2m").
Proof.
  intros seconds.
  destruct (exportAsMarkdown_runtime_line formatDate entity) as [rest Hrest].
  eexists _, rest. split; [exact Hrest|].
  split; [apply formatRuntime_hours|].
  split; [apply formatRuntime_minutes|].
  split; intros ->; reflexivity.
Qed.

Lemma C8_markdown_runtime_witness :
  (exists header rest,
     exportAsMarkdown Sample.formatDate (Sample.entity 5400) =
       header +:+ "- **Runtime:** 1h 30m" +:+ nl +:+ rest)
  /\ (exists header rest,
        exportAsMarkdown Sample.formatDate (Sample.entity 125) =
          header +:+ "- **Runtime:** 2m" +:+ nl +:+ rest).
Proof.
  split.
  - destruct (C8_markdown_runtime Sample.formatDate (Sample.entity 5400))
      as (header & rest & Hexp & _ & _ & H5400 & _).
    exists header, rest. rewrite Hexp, H5400 by reflexivity. reflexivity.
  - destruct (C8_markdown_runtime Sample.formatDate (Sample.entity 125))
      as (header & rest & Hexp & _ & _ & _ & H125).
    exists header, rest. rewrite Hexp, H125 by reflexivity. reflexivity.
Defined.

(** ** Search history *)

Lemma addToHistory_history id title s w :
  State.history (addToHistory id title (s, w)).2.1 =
    addToHistory_updated (World.Date_now w) id title (State.history s).
Proof. reflexivity. Qed.

Lemma same_id_filter_other id l :
  List.filter (same_id id) (List.filter (other_id id) l) = [].
Proof.
  induction l as [|x l IH]; [reflexivity|].
  simpl. destruct (other_id id x) eqn:E; [|exact IH].
  simpl. unfold same_id. unfold other_id in E.
  destruct (String.eqb (SearchHistoryItem.id x) id); [discriminate | exact IH].
Qed.

Lemma filter_firstn_nil {A} (f : A -> bool) n (l : list A) :
  List.filter f l = [] -> List.filter f (firstn n l) = [].
Proof.
  revert n. induction l as [|x l IH]; intros [|n] H; try reflexivity.
  simpl in *. destruct (f x); [discriminate | auto].
Qed.

Lemma filter_other_all id l :
  Forall (fun item => SearchHistoryItem.id item <> id) l ->
  List.filter (other_id id) l = l.
Proof.
  induction 1 as [|x l Hx _ IH]; [reflexivity|].
  simpl. unfold other_id at 1.
  destruct (String.eqb_spec (SearchHistoryItem.id x) id); [contradiction|].
  simpl. by rewrite IH.
Qed.

Lemma filter_other_firstn id n l :
  List.filter (other_id id) (firstn n (List.filter (other_id id) l)) =
    firstn n (List.filter (other_id id) l).
Proof.
  revert n. induction l as [|x l IH]; intros n.
  - by destruct n.
  - simpl. destruct (other_id id x) eqn:E; [|apply IH].
    destruct n; [reflexivity|]. simpl. rewrite E. by rewrite IH.
Qed.

Lemma addToHistory_updated_cons now id title prev :
  addToHistory_updated now id title prev =
    {| SearchHistoryItem.id := id; SearchHistoryItem.title := title;
       SearchHistoryItem.timestamp := now |}
      :: firstn 19 (List.filter (other_id id) prev).
Proof. reflexivity. Qed.

Lemma filter_other_cons_same id title now l :
  List.filter (other_id id)
    ({| SearchHistoryItem.id := id; SearchHistoryItem.title := title;
        SearchHistoryItem.timestamp := now |} :: l) =
    List.filter (other_id id) l.
Proof.
  cbn [List.filter]. unfold other_id at 1. cbn [SearchHistoryItem.id].
  by rewrite String.eqb_refl.
Qed.

Lemma filter_same_cons_same id title now l :
  List.filter (same_id id)
    ({| SearchHistoryItem.id := id; SearchHistoryItem.title := title;
        SearchHistoryItem.timestamp := now |} :: l) =
    {| SearchHistoryItem.id := id; SearchHistoryItem.title := title;
       SearchHistoryItem.timestamp := now |} :: List.filter (same_id id) l.
Proof.
  cbn [List.filter]. unfold same_id at 1. cbn [SearchHistoryItem.id].
  by rewrite String.eqb_refl.
Qed.

(** C1. Recording a search drops every entry of that identifier, puts a new
    entry stamped with the current time in front and keeps the first 20;
    the new list holds exactly one entry of the identifier; recording the
    identifier again replaces that front entry by the newer one and leaves
    the rest as it was; recording an identifier absent from a full list of
    20 drops the last (oldest) entry and keeps the others. *)
Theorem C1_record_search (id title : string) (s : State.t) (w : World.t) :
  let entry := {| SearchHistoryItem.id := id; SearchHistoryItem.title := title;
                  SearchHistoryItem.timestamp := World.Date_now w |} in
  let s' := (addToHistory id title (s, w)).2.1 in
  State.history s' = firstn 20 (entry :: List.filter (other_id id) (State.history s))
  /\ head (State.history s') = Some entry
  /\ length (State.history s') <= 20
  /\ List.filter (same_id id) (State.history s') = [entry]
  /\ (forall title2 w2,
        State.history (addToHistory id title2 (s', w2)).2.1 =
          {| SearchHistoryItem.id := id; SearchHistoryItem.title := title2;
             SearchHistoryItem.timestamp := World.Date_now w2 |}
            :: tail (State.history s')
        /\ List.filter (same_id id) (tail (State.history s')) = [])
  /\ (length (State.history s) = 20 ->
      Forall (fun item => SearchHistoryItem.id item <> id) (State.history s) ->
      State.history s' = entry :: removelast (State.history s)).
Proof.
  intros entry s'.
  assert (Hs' : State.history s' =
                  entry :: firstn 19 (List.filter (other_id id) (State.history s))).
  { subst s'. rewrite addToHistory_history. apply addToHistory_updated_cons. }
  assert (Hrest : List.filter (same_id id)
                    (firstn 19 (List.filter (other_id id) (State.history s))) = []).
  { apply filter_firstn_nil, same_id_filter_other. }
  split; [exact Hs'|]. rewrite Hs'.
  split; [reflexivity|].
  split; [cbn [length]; rewrite length_take; lia|].
  split; [unfold entry; rewrite filter_same_cons_same, Hrest; reflexivity|].
  split.
  - intros title2 w2. rewrite addToHistory_history.
    rewrite Hs'. cbn [tail]. split; [|exact Hrest].
    rewrite addToHistory_updated_cons. f_equal. unfold entry.
    rewrite filter_other_cons_same, filter_other_firstn.
    apply take_ge. rewrite length_take. lia.
  - intros Hlen Hall. rewrite filter_other_all by exact Hall.
    rewrite removelast_firstn_len, Hlen. reflexivity.
Qed.

Lemma C1_record_search_witness :
  length (State.history Sample.full_state) = 20
  /\ Forall (fun item => SearchHistoryItem.id item <> "21")
       (State.history Sample.full_state)
  /\ State.history (addToHistory "21" "New title" (Sample.full_state, Sample.world)).2.1 =
       {| SearchHistoryItem.id := "21"; SearchHistoryItem.title := "New title";
          SearchHistoryItem.timestamp := 1700000000000 |}
         :: removelast (State.history Sample.full_state).
Proof.
  assert (Hall : Forall (fun item => SearchHistoryItem.id item <> "21")
                   (State.history Sample.full_state)).
  { vm_compute. repeat (constructor; [discriminate|]). constructor. }
  split; [reflexivity|]. split; [exact Hall|].
  destruct (C1_record_search "21" "New title" Sample.full_state Sample.world)
    as (_ & _ & _ & _ & _ & Hevict).
  apply Hevict; [reflexivity | exact Hall].
Defined.

(** ** Analytics *)

Lemma slice_last_app {A} (n : nat) (l m : list A) :
  JS.slice_last n (JS.slice_last n l ++ m) = JS.slice_last n (l ++ m).
Proof.
  unfold JS.slice_last.
  rewrite !length_app, length_drop.
  destruct (le_lt_dec (length l) n) as [Hle|Hlt].
  - replace (length l - n) with 0 by lia. rewrite drop_0.
    by replace (length l - 0) with (length l) by lia.
  - replace (length l - (length l - n) + length m - n) with (length m) by lia.
    replace (length l + length m - n) with (length l - n + length m) by lia.
    rewrite <- drop_drop. rewrite (drop_app_le l) by lia. reflexivity.
Qed.

Lemma slice_last_all {A} (n : nat) (l m : list A) :
  length m = S n -> JS.slice_last n (l ++ m) = drop 1 m.
Proof.
  intros Hm. unfold JS.slice_last. rewrite length_app.
  replace (length l + length m - n) with (length l + 1) by lia.
  rewrite drop_app_ge by lia. f_equal. lia.
Qed.

Lemma slice_last_snoc {A} (n : nat) (l : list A) (x : A) :
  0 < n -> last (JS.slice_last n (l ++ [x])) = Some x.
Proof.
  intros Hn. unfold JS.slice_last.
  rewrite last_lookup, lookup_drop, length_drop, length_app. cbn [length].
  replace (length l + 1 - n + Init.Nat.pred (length l + 1 - (length l + 1 - n)))
    with (length l) by lia.
  by apply list_lookup_middle.
Qed.

Lemma trackAll_analytics calls s w :
  State.analytics (trackAll calls (s, w)).1 = fold_left step calls (State.analytics s).
Proof.
  unfold trackAll. revert s w.
  induction calls as [|c calls IH]; intros s w; [reflexivity|].
  cbn [fold_left]. cbn [trackSearch snd]. rewrite IH. reflexivity.
Qed.

Lemma step_total calls a :
  AnalyticsData.totalSearches (fold_left step calls a) =
    (AnalyticsData.totalSearches a + Z.of_nat (length calls))%Z.
Proof.
  revert a. induction calls as [|c calls IH]; intros a; cbn [fold_left length].
  - lia.
  - rewrite IH. cbn [step trackSearch_updated AnalyticsData.totalSearches]. lia.
Qed.

Lemma step_window calls a :
  calls <> [] ->
  AnalyticsData.searchTimes (fold_left step calls a) =
    JS.slice_last 50 (AnalyticsData.searchTimes a ++ map snd calls).
Proof.
  induction calls as [|c calls IH] using rev_ind; [congruence|]. intros _.
  rewrite fold_left_app, map_app. cbn [fold_left map].
  unfold step at 1. cbn [trackSearch_updated AnalyticsData.searchTimes].
  destruct calls as [|c0 calls].
  - reflexivity.
  - rewrite IH by discriminate. rewrite slice_last_app, <- app_assoc. reflexivity.
Qed.

Lemma step_average calls a :
  calls <> [] ->
  AnalyticsData.avgResponseTime (fold_left step calls a) =
    JS.Math_round (average (AnalyticsData.searchTimes (fold_left step calls a))).
Proof.
  destruct calls as [|c calls _] using rev_ind; [congruence|]. intros _.
  rewrite fold_left_app. reflexivity.
Qed.

(** C2. After 51 calls to [trackSearch], whatever the state before them,
    the window holds the last 50 samples in order, the reported average is
    their arithmetic mean rounded to the nearest integer ([Math.round]), and
    [totalSearches] has grown by 51. *)
Theorem C2_rolling_window (calls : list (string * Z)) (s : State.t) (w : World.t) :
  length calls = 51 ->
  let a := State.analytics (trackAll calls (s, w)).1 in
  AnalyticsData.searchTimes a = drop 1 (map snd calls)
  /\ length (AnalyticsData.searchTimes a) = 50
  /\ AnalyticsData.avgResponseTime a = JS.Math_round (average (drop 1 (map snd calls)))
  /\ AnalyticsData.totalSearches a =
       (AnalyticsData.totalSearches (State.analytics s) + 51)%Z.
Proof.
  intros Hlen a. subst a. rewrite trackAll_analytics.
  assert (Hne : calls <> []) by (intros ->; discriminate).
  assert (Hw : AnalyticsData.searchTimes (fold_left step calls (State.analytics s))
               = drop 1 (map snd calls)).
  { rewrite step_window by exact Hne. apply slice_last_all. by rewrite length_map. }
  split; [exact Hw|].
  split; [rewrite Hw, length_drop, length_map; lia|].
  split; [rewrite step_average by exact Hne; by rewrite Hw|].
  rewrite step_total, Hlen. reflexivity.
Qed.

Lemma C2_rolling_window_witness :
  length Sample.calls_one = 51
  /\ let a := State.analytics (trackAll Sample.calls_one (State.initial, Sample.world)).1 in
     AnalyticsData.searchTimes a = (repeat 0%Z 49 ++ [1%Z])%list
     /\ AnalyticsData.avgResponseTime a = 0%Z
     /\ AnalyticsData.totalSearches a = 51%Z.
Proof.
  split; [reflexivity|].
  destruct (C2_rolling_window Sample.calls_one State.initial Sample.world eq_refl)
    as (Hwindow & _ & Havg & Htotal).
  cbv zeta. rewrite Hwindow, Havg, Htotal. split; [|split]; reflexivity.
Defined.

(** The reported average is not the arithmetic mean itself when that is not
    an integer: fifty samples that sum to 1 ms have mean 1/50 and are reported
    as 0. *)
Lemma C2_counterexample :
  let a := State.analytics (trackAll Sample.calls_one (State.initial, Sample.world)).1 in
  AnalyticsData.searchTimes a = drop 1 (map snd Sample.calls_one)
  /\ ~ (inject_Z (AnalyticsData.avgResponseTime a)
        == average (AnalyticsData.searchTimes a))%Q.
Proof.
  cbv zeta. split; [vm_compute; reflexivity|].
  vm_compute. discriminate.
Qed.

(** ** Storage adapter *)

Section StorageAdapterProperties.

Context {T : Type} `{Parse T} `{Stringify T}.

Lemma getFromStorage_parsed (st : Storage.t) (key item : string) (d x : T) :
  Storage.disabled st = false ->
  Storage.items st !! key = Some item ->
  item <> "" ->
  JSON_parse item = JS.Ok x ->
  getFromStorage st key d = x.
Proof.
  intros Hd Hitem Hne Hparse.
  unfold getFromStorage, getFromStorage_try, Storage.getItem.
  rewrite Hd. cbn. rewrite Hitem.
  destruct item as [|c r]; [congruence|]. by rewrite Hparse.
Qed.

Lemma setToStorage_stored (st : Storage.t) (key text : string) (v : T) :
  Storage.disabled st = false ->
  JSON_stringify v = JS.Ok text ->
  Storage.usage (<[key := text]> (Storage.items st)) <= Storage.quota st ->
  Storage.items (setToStorage st key v) = <[key := text]> (Storage.items st).
Proof.
  intros Hd Htext Hfit.
  unfold setToStorage, setToStorage_try, Storage.setItem.
  rewrite Htext. unfold mbind, Result_bind, JS.bind. rewrite Hd.
  apply Nat.ltb_ge in Hfit. rewrite Hfit. reflexivity.
Qed.

(** C7. [getFromStorage] is a total function of the store, the key and
    the default: it yields the default when reading the store throws, when
    the key is absent or holds the empty text, and when the text does not
    parse.  [setToStorage] yields the store unchanged when encoding throws,
    when the store is disabled and when the write would exceed the quota. *)
Theorem C7_storage_never_raises (st : Storage.t) (key : string) (d v : T) :
  ((Storage.disabled st = true
    \/ Storage.items st !! key = None
    \/ Storage.items st !! key = Some ""
    \/ (exists item e, Storage.items st !! key = Some item /\ JSON_parse item = JS.Throw e))
   -> getFromStorage st key d = d)
  /\ ((Storage.disabled st = true
       \/ (exists e, JSON_stringify v = JS.Throw e)
       \/ (exists text, JSON_stringify v = JS.Ok text
                        /\ Storage.quota st
                           < Storage.usage (<[key := text]> (Storage.items st))))
      -> setToStorage st key v = st).
Proof.
  split.
  - unfold getFromStorage, getFromStorage_try, Storage.getItem.
    intros [Hd | Hcase].
    + by rewrite Hd.
    + destruct (Storage.disabled st); [reflexivity|]. cbn.
      destruct Hcase as [-> | [-> | (item & e & -> & Hparse)]]; try reflexivity.
      destruct item; [reflexivity|]. by rewrite Hparse.
  - unfold setToStorage, setToStorage_try, Storage.setItem.
    intros [Hd | [(e & He) | (text & Htext & Hfull)]].
    + rewrite Hd. by destruct (JSON_stringify v).
    + by rewrite He.
    + rewrite Htext. unfold mbind, Result_bind, JS.bind.
      destruct (Storage.disabled st); [reflexivity|].
      apply Nat.ltb_lt in Hfull. rewrite Hfull. reflexivity.
Qed.

End StorageAdapterProperties.

Lemma C7_storage_never_raises_witness :
  @getFromStorage _ Sample.parse_string Sample.storage_garbled STORAGE_KEYS.THEME "dark"
    = "dark"
  /\ @setToStorage _ Sample.stringify_string Sample.storage_light STORAGE_KEYS.HISTORY
       "a text that does not fit in what is left of the quota"
     = Sample.storage_light.
Proof.
  split.
  - apply (@C7_storage_never_raises _ Sample.parse_string Sample.stringify_string
             Sample.storage_garbled STORAGE_KEYS.THEME "dark" "dark").
    right. right. right. eexists _, _. split; reflexivity.
  - apply (@C7_storage_never_raises _ Sample.parse_string Sample.stringify_string
             Sample.storage_light STORAGE_KEYS.HISTORY "dark").
    right. right. eexists. split; [reflexivity|]. vm_compute. lia.
Defined.

(** ** The autocomplete filter *)

Lemma startsWith_spec (p s : string) :
  JS.startsWith p s = true <-> exists after, s = p +:+ after.
Proof.
  revert s. induction p as [|a p IH]; intros s.
  - split; [intros _; by exists s | reflexivity].
  - destruct s as [|b s]; cbn [JS.startsWith].
    + split; [discriminate | intros [after Hs]; discriminate].
    + destruct (Ascii.eqb_spec a b) as [->|Hab].
      * rewrite IH. split; intros [after Hs]; exists after.
        -- by rewrite append_cons, <- Hs.
        -- rewrite append_cons in Hs. congruence.
      * split; [discriminate|]. intros [after Hs].
        rewrite append_cons in Hs. congruence.
Qed.










(** The identifier is matched as written and the title up to case: the query
    "abc" finds the entry titled "abc of film" through its title, not through
    its identifier "ABC", and finds nothing in an entry whose identifier is
    "ABC" and whose title does not contain it.  With the Latin-1 letters
    converted, the query "élite" finds the title "ÉLITE". *)
Example filteredHistory_case :
  filteredHistory Sample.latin1_toLowerCase
    [Sample.stranger_things; Sample.night_agent; Sample.abc_of_film] "ABC"
    = [Sample.abc_of_film]
  /\ filteredHistory Sample.latin1_toLowerCase
       [Sample.stranger_things; Sample.abc_of_film] "STRANGER"
     = [Sample.stranger_things]
  /\ filteredHistory Sample.latin1_toLowerCase
       [ {| SearchHistoryItem.id := "ABC"; SearchHistoryItem.title := "Untitled";
            SearchHistoryItem.timestamp := 0 |} ] "abc" = []
  /\ filteredHistory Sample.latin1_toLowerCase [Sample.elite; Sample.stranger_things] "élite"
     = [Sample.elite].
Proof. repeat split. Qed.

(** ** URL state *)

Lemma URLSearchParams_get_delete name ps :
  URLSearchParams.get name (URLSearchParams.delete name ps) = None.
Proof.
  unfold URLSearchParams.get, URLSearchParams.delete.
  induction ps as [|p ps IH]; [reflexivity|].
  cbn [List.filter]. destruct (String.eqb (fst p) name) eqn:E; cbn [negb]; [exact IH|].
  cbn [List.find]. by rewrite E.
Qed.

Lemma URLSearchParams_get_set name value ps :
  URLSearchParams.get name (URLSearchParams.set name value ps) = Some value.
Proof.
  unfold URLSearchParams.get.
  induction ps as [|p ps IH]; cbn [URLSearchParams.set].
  - cbn [List.find fst]. by rewrite String.eqb_refl.
  - destruct (String.eqb (fst p) name) eqn:E.
    + cbn [List.find fst]. by rewrite String.eqb_refl.
    + cbn [List.find]. by rewrite E.
Qed.

Lemma URLSearchParams_get_delete_other name other ps :
  other <> name ->
  URLSearchParams.get other (URLSearchParams.delete name ps) = URLSearchParams.get other ps.
Proof.
  intros Hne. unfold URLSearchParams.get, URLSearchParams.delete.
  induction ps as [|p ps IH]; [reflexivity|].
  cbn [List.filter List.find].
  destruct (String.eqb_spec (fst p) name) as [Hp|Hp]; cbn [negb].
  - destruct (String.eqb_spec (fst p) other); [congruence | exact IH].
  - cbn [List.find]. destruct (String.eqb (fst p) other); [reflexivity | exact IH].
Qed.

Lemma URLSearchParams_get_set_other name other value ps :
  other <> name ->
  URLSearchParams.get other (URLSearchParams.set name value ps) = URLSearchParams.get other ps.
Proof.
  intros Hne.
  induction ps as [|p ps IH]; cbn [URLSearchParams.set].
  - unfold URLSearchParams.get. cbn [List.find fst].
    destruct (String.eqb_spec name other); [congruence | reflexivity].
  - destruct (String.eqb_spec (fst p) name) as [Hp|Hp].
    + pose proof (URLSearchParams_get_delete_other name other ps Hne) as Hdel.
      unfold URLSearchParams.get in *. cbn [List.find fst].
      destruct (String.eqb_spec name other); [congruence|].
      destruct (String.eqb_spec (fst p) other); [congruence | exact Hdel].
    + unfold URLSearchParams.get in *. cbn [List.find].
      destruct (String.eqb (fst p) other); [reflexivity | exact IH].
Qed.

(** C4. Writing an identifier to the URL pushes one new session-history
    entry: the entry that was current stays behind the new one, the entries
    ahead are dropped, and the new current address carries the identifier in
    [v] (no [v] for the empty identifier) with its other parameters as they
    were.  The store and the request log are not touched. *)
Theorem C4_url_write_pushes (videoId : string) (w : World.t) :
  let h := World.session w in
  let w' := setVideoIdToURL videoId w in
  let h' := World.session w' in
  History.back h' = History.current h :: History.back h
  /\ History.forward h' = []
  /\ History.length h' = length (History.back h) + 2
  /\ getVideoIdFromURL w' = videoId
  /\ (forall name, name <> "v" ->
        URLSearchParams.get name (URL.searchParams (History.current h'))
        = URLSearchParams.get name (URL.searchParams (History.current h)))
  /\ World.localStorage w' = World.localStorage w
  /\ World.requests w' = World.requests w.
Proof.
  cbv zeta. unfold setVideoIdToURL, getVideoIdFromURL.
  cbn [World.session World.set_session History.pushState History.back History.forward
       History.current History.length URL.searchParams World.localStorage World.requests
       length].
  repeat split.
  - unfold History.length. cbn [History.pushState History.back History.forward length]. lia.
  - destruct videoId.
    + by rewrite URLSearchParams_get_delete.
    + by rewrite URLSearchParams_get_set.
  - intros name Hname. destruct videoId.
    + by apply URLSearchParams_get_delete_other.
    + by apply URLSearchParams_get_set_other.
Qed.

Lemma C4_url_write_pushes_witness :
  URLSearchParams.get "theme"
    (URL.searchParams
       (History.current
          (World.session (setVideoIdToURL "80057281" (setVideoIdToURL "81767635" Sample.world)))))
  = URLSearchParams.get "theme"
      (URL.searchParams
         (History.current (World.session (setVideoIdToURL "81767635" Sample.world)))).
Proof.
  apply (C4_url_write_pushes "80057281" (setVideoIdToURL "81767635" Sample.world)).
  discriminate.
Defined.

(** One search, one more entry: writing the identifier takes a session
    history of one entry to two, where replacing the current entry would have
    left one. *)
Lemma C4_counterexample :
  let h := World.session Sample.world in
  let h' := World.session (setVideoIdToURL "80057281" Sample.world) in
  History.length h = 1
  /\ History.length h' = 2
  /\ History.length h' <> History.length h
  /\ History.length (History.replaceState (History.current h') h) = History.length h.
Proof. cbv zeta. repeat split. discriminate. Qed.

(** ** The batch handler *)

Lemma handleBatchSearch_loop_run server ids entities s w :
  let outs := responses server (World.requests w) ids in
  handleBatchSearch_loop server ids entities (s, w) =
    (match batch_failure outs with
     | Some e => JS.Throw e
     | None => JS.Ok (entities ++ omap first_entity outs)%list
     end,
     (s, batch_world w ids outs)).
Proof.
  cbv zeta. revert entities w.
  induction ids as [|id ids IH]; intros entities w.
  - cbn. by rewrite app_nil_r.
  - cbn [handleBatchSearch_loop responses batch_failure batch_world omap list_omap].
    unfold mbind at 1, Handler_bind at 1, fetch, failure, first_entity.
    destruct (FetchOutcome.reply (server (World.requests w) (metadata_url id)))
      as [m|r]; [reflexivity|].
    unfold mbind at 1, Handler_bind at 1, H.lift.
    destruct (Response.json r) as [result|e]; [|reflexivity].
    rewrite IH. cbn [World.requests World.request].
    destruct (batch_failure _); [reflexivity|].
    destruct (NetflixResponse.entities result) as [|entity rest]; cbn [head].
    + reflexivity.
    + by rewrite <- app_assoc.
Qed.

Lemma batch_world_frame w ids outs :
  World.localStorage (batch_world w ids outs) = World.localStorage w
  /\ World.session (batch_world w ids outs) = World.session w
  /\ World.toasts (batch_world w ids outs) = World.toasts w
  /\ World.timeOrigin (batch_world w ids outs) = World.timeOrigin w.
Proof.
  revert w outs. induction ids as [|id ids IH]; intros w [|o outs]; try done.
  cbn [batch_world]. destruct (failure o); [done|].
  destruct (IH (World.request (metadata_url id) (FetchOutcome.latency o) w) outs)
    as (-> & -> & -> & ->). done.
Qed.

Lemma batch_world_requests w ids outs :
  length outs = length ids ->
  World.requests (batch_world w ids outs) =
    (World.requests w ++ map metadata_url (take (answered outs) ids))%list.
Proof.
  revert w outs. induction ids as [|id ids IH]; intros w [|o outs] Hlen;
    try discriminate.
  - cbn. by rewrite app_nil_r.
  - cbn [batch_world answered]. destruct (failure o).
    + reflexivity.
    + rewrite IH by (cbn in Hlen; lia). cbn [World.requests World.request take map].
      by rewrite <- app_assoc.
Qed.

Lemma responses_length server log ids : length (responses server log ids) = length ids.
Proof.
  revert log. induction ids as [|id ids IH]; intros log; [reflexivity|].
  cbn [responses length]. by rewrite IH.
Qed.

Lemma answered_all outs : batch_failure outs = None -> answered outs = length outs.
Proof.
  induction outs as [|o outs IH]; [reflexivity|].
  cbn [batch_failure answered length]. destruct (failure o); [discriminate|].
  intros Hnone. by rewrite IH.
Qed.

Lemma answered_le outs : answered outs <= length outs.
Proof.
  induction outs as [|o outs IH]; [reflexivity|].
  cbn [answered length]. destruct (failure o); lia.
Qed.

(** The three ways a batch ends. *)
Lemma handleBatchSearch_run server ids s w :
  let outs := responses server (World.requests w) (take 4 ids) in
  let w1 := batch_world w (take 4 ids) outs in
  handleBatchSearch server ids (s, w) =
    match batch_failure outs with
    | Some e =>
        (State.set_isLoading false
           (State.set_error (Some (JS.message e)) (start_loading s)),
         World.toast (toast_error (JS.message e)) w1)
    | None =>
        match omap first_entity outs with
        | [] =>
            (State.set_isLoading false
               (State.set_error (Some NONE_FOUND) (start_loading s)),
             World.toast (toast_error NONE_FOUND) w1)
        | entities =>
            let responseTime :=
              JS.Math_round (World.performance_now w1 - World.performance_now w)%Q in
            let updated :=
              trackSearch_updated (JS.join "," ids) responseTime (State.analytics s) in
            (State.set_isLoading false
               (State.set_comparisonData entities
                  (State.set_analytics updated (start_loading s))),
             World.toast
               (toast_success ("Comparing " +:+ JS.toString (Z.of_nat (length entities))
                                 +:+ " titles"))
               (World.set_localStorage
                  (setToStorage (World.localStorage w1) STORAGE_KEYS.ANALYTICS updated) w1))
        end
    end.
Proof.
  cbv zeta. unfold handleBatchSearch, H.try_catch_finally, handleBatchSearch_try.
  cbn [fst snd]. unfold mbind at 1, Handler_bind at 1, JS.slice_to.
  rewrite handleBatchSearch_loop_run. cbn [app].
  destruct (batch_failure _) as [e|]; [reflexivity|].
  destruct (omap first_entity _) as [|entity entities]; reflexivity.
Qed.

(** C3. In a batch, an answer that parses but carries no entity (missing or
    empty entity list, whatever the HTTP status) is passed over without a
    message and the next identifier is requested; when every answer parses,
    the batch ends on the single aggregate error exactly when no answer
    carried an entity, and otherwise shows the entities found.  A transport
    failure or an unparseable body ends the batch there: the identifiers
    after it are not requested and the batch ends on that failure's message. *)
Theorem C3_batch_failures (server : Server) (ids : list string) (s : State.t) (w : World.t) :
  let outs := responses server (World.requests w) (take 4 ids) in
  let sw' := handleBatchSearch server ids (s, w) in
  (batch_failure outs = None ->
     World.requests sw'.2 = (World.requests w ++ map metadata_url (take 4 ids))%list
     /\ (State.error sw'.1 = Some NONE_FOUND <-> omap first_entity outs = [])
     /\ (omap first_entity outs <> [] ->
         State.error sw'.1 = None
         /\ State.comparisonData sw'.1 = omap first_entity outs)
     /\ (exists t, World.toasts sw'.2 = (World.toasts w ++ [t])%list))
  /\ (forall e, batch_failure outs = Some e ->
        World.requests sw'.2 =
          (World.requests w ++ map metadata_url (take (answered outs) (take 4 ids)))%list
        /\ State.error sw'.1 = Some (JS.message e)
        /\ State.comparisonData sw'.1 = []
        /\ World.toasts sw'.2 = (World.toasts w ++ [toast_error (JS.message e)])%list).
Proof.
  cbv zeta. rewrite handleBatchSearch_run. cbv zeta.
  set (outs := responses server (World.requests w) (take 4 ids)).
  assert (Hlen : length outs = length (take 4 ids)) by apply responses_length.
  pose proof (batch_world_requests w (take 4 ids) outs Hlen) as Hreq.
  destruct (batch_world_frame w (take 4 ids) outs) as (_ & _ & Htoasts & _).
  split.
  - intros Hnone. rewrite Hnone.
    rewrite (answered_all outs Hnone), Hlen, firstn_all in Hreq.
    destruct (omap first_entity outs) as [|entity entities] eqn:Hfound;
      cbn [fst snd State.error State.set_isLoading State.set_error State.comparisonData
           State.set_comparisonData State.set_analytics start_loading State.set_data
           World.requests World.toast World.toasts World.set_localStorage].
    + split; [exact Hreq|]. split; [done|]. split; [done|].
      eexists. by rewrite Htoasts.
    + split; [exact Hreq|]. split; [split; discriminate|]. split; [done|].
      eexists. by rewrite Htoasts.
  - intros e He. rewrite He.
    cbn [fst snd State.error State.set_isLoading State.set_error State.comparisonData
         State.set_comparisonData start_loading State.set_data
         World.requests World.toast World.toasts].
    by rewrite Htoasts.
Qed.

Lemma C3_batch_failures_witness :
  (batch_failure (responses Sample.server_refuses_first [] ["A"; "B"]) = None
   /\ World.requests
        (handleBatchSearch Sample.server_refuses_first ["A"; "B"]
           (State.initial, Sample.world)).2
      = [metadata_url "A"; metadata_url "B"])
  /\ (batch_failure (responses Sample.server_garbled_first [] ["A"; "B"])
      = Some (JS.SyntaxError "Unexpected token < in JSON at position 0")
      /\ State.error
           (handleBatchSearch Sample.server_garbled_first ["A"; "B"]
              (State.initial, Sample.world)).1
         = Some "Unexpected token < in JSON at position 0").
Proof.
  split; (split; [reflexivity|]).
  - destruct (C3_batch_failures Sample.server_refuses_first ["A"; "B"]
                State.initial Sample.world) as [Hparsed _].
    destruct (Hparsed eq_refl) as (Hreq & _). exact Hreq.
  - destruct (C3_batch_failures Sample.server_garbled_first ["A"; "B"]
                State.initial Sample.world) as [_ Habort].
    destruct (Habort _ eq_refl) as (_ & Herr & _). exact Herr.
Defined.

(** An endpoint with no entity for any identifier of the batch: both are
    requested and the batch ends on one aggregate error, with one message. *)
Example handleBatchSearch_none_found :
  let sw' := handleBatchSearch Sample.server_empty ["A"; "B"] (State.initial, Sample.world) in
  World.requests sw'.2 = [metadata_url "A"; metadata_url "B"]
  /\ State.error sw'.1 = Some NONE_FOUND
  /\ World.toasts sw'.2 = [toast_error NONE_FOUND]
  /\ State.analytics sw'.1 = State.analytics State.initial.
Proof. vm_compute. repeat split. Qed.

(** A body that does not parse is not passed over: with the answer for A
    unparseable, B is never requested, and the batch ends on the parser's
    message although B would have answered with an entity. *)
Lemma C3_counterexample :
  ~ batch_skips_failures Sample.server_garbled_first ["A"; "B"]
      (State.initial, Sample.world).
Proof.
  unfold batch_skips_failures. intros [Hreq _].
  vm_compute in Hreq. discriminate Hreq.
Qed.

(** C6. A batch requests identifiers of the first four of its input only,
    in input order, stopping at the first request that fails; when none
    fails the requests are exactly those for the first four. *)
Theorem C6_batch_first_four (server : Server) (ids : list string) (s : State.t) (w : World.t) :
  let outs := responses server (World.requests w) (take 4 ids) in
  let w' := (handleBatchSearch server ids (s, w)).2 in
  World.requests w' =
    (World.requests w ++ map metadata_url (take (answered outs) (take 4 ids)))%list
  /\ answered outs <= 4
  /\ (batch_failure outs = None ->
      World.requests w' = (World.requests w ++ map metadata_url (take 4 ids))%list).
Proof.
  cbv zeta. set (outs := responses server (World.requests w) (take 4 ids)).
  assert (Hlen : length outs = length (take 4 ids)) by apply responses_length.
  assert (Hreq : World.requests (handleBatchSearch server ids (s, w)).2 =
                   (World.requests w
                    ++ map metadata_url (take (answered outs) (take 4 ids)))%list).
  { rewrite handleBatchSearch_run. cbv zeta. fold outs.
    rewrite <- (batch_world_requests w (take 4 ids) outs Hlen).
    destruct (batch_failure outs); [reflexivity|].
    destruct (omap first_entity outs); reflexivity. }
  split; [exact Hreq|]. split.
  - pose proof (answered_le outs). rewrite Hlen, length_take in H. lia.
  - intros Hnone. rewrite Hreq, (answered_all outs Hnone), Hlen. by rewrite firstn_all.
Qed.

Lemma C6_batch_first_four_witness :
  batch_failure (responses Sample.server_ok [] (take 4 ["A"; "B"; "C"; "D"; "E"])) = None
  /\ World.requests
       (handleBatchSearch Sample.server_ok ["A"; "B"; "C"; "D"; "E"]
          (State.initial, Sample.world)).2
     = map metadata_url ["A"; "B"; "C"; "D"].
Proof.
  split; [reflexivity|].
  destruct (C6_batch_first_four Sample.server_ok ["A"; "B"; "C"; "D"; "E"]
              State.initial Sample.world) as (_ & _ & Hall).
  exact (Hall eq_refl).
Defined.

(** C10. A batch that succeeds records one analytics entry: the update is
    the one call [trackSearch(ids.join(','), responseTime)] on the whole
    input list, with the time elapsed from the start of the batch to its
    end, so [totalSearches] grows by one and the newest recent search
    carries the comma-joined input and that one elapsed time. *)
Theorem C10_batch_analytics (server : Server) (ids : list string) (s : State.t) (w : World.t) :
  let sw' := handleBatchSearch server ids (s, w) in
  let elapsed :=
    JS.Math_round (World.performance_now sw'.2 - World.performance_now w)%Q in
  State.error sw'.1 = None ->
  State.analytics sw'.1 =
    trackSearch_updated (JS.join "," ids) elapsed (State.analytics s)
  /\ AnalyticsData.totalSearches (State.analytics sw'.1) =
       (AnalyticsData.totalSearches (State.analytics s) + 1)%Z
  /\ head (AnalyticsData.recentSearches (State.analytics sw'.1)) =
       Some {| RecentSearch.id := JS.join "," ids; RecentSearch.time := elapsed |}
  /\ last (AnalyticsData.searchTimes (State.analytics sw'.1)) = Some elapsed.
Proof.
  cbv zeta. rewrite handleBatchSearch_run. cbv zeta.
  destruct (batch_failure _) as [e|]; [discriminate|].
  destruct (omap first_entity _) as [|entity entities]; [discriminate|].
  intros _.
  cbn [fst snd State.analytics State.set_isLoading State.set_comparisonData
       State.set_analytics].
  split; [reflexivity|]. split; [reflexivity|]. split; [reflexivity|].
  cbn [trackSearch_updated AnalyticsData.searchTimes].
  apply slice_last_snoc. lia.
Qed.

Lemma C10_batch_analytics_witness :
  State.error
    (handleBatchSearch Sample.server_ok ["A"; "B"; "C"; "D"; "E"]
       (State.initial, Sample.world)).1 = None
  /\ State.analytics
       (handleBatchSearch Sample.server_ok ["A"; "B"; "C"; "D"; "E"]
          (State.initial, Sample.world)).1
     = {| AnalyticsData.totalSearches := 1;
          AnalyticsData.avgResponseTime := 480;
          AnalyticsData.searchTimes := [480%Z];
          AnalyticsData.recentSearches :=
            [ {| RecentSearch.id := "A,B,C,D,E"; RecentSearch.time := 480 |} ] |}.
Proof.
  split; [reflexivity|].
  destruct (C10_batch_analytics Sample.server_ok ["A"; "B"; "C"; "D"; "E"]
              State.initial Sample.world eq_refl) as (Hupdated & _).
  rewrite Hupdated. reflexivity.
Defined.

(** ** Rate-limit state *)

(** The single search overwrites the rate-limit state from a response that
    carries both headers and leaves it alone otherwise. *)
Lemma handleSearch_rateLimit (server : Server) (videoId : string) (s : State.t) (w : World.t) :
  State.rateLimit (handleSearch server videoId (s, w)).1 =
    match FetchOutcome.reply (server (World.requests w) (metadata_url videoId)) with
    | FetchOutcome.Responded response =>
        let remaining := Response.headers_get "X-RateLimit-Remaining" response in
        let limit := Response.headers_get "X-RateLimit-Limit" response in
        if JS.truthy remaining && JS.truthy limit
        then {| RateLimit.remaining := ParseInt.parseInt (default "" remaining);
                RateLimit.limit := ParseInt.parseInt (default "" limit) |}
        else State.rateLimit s
    | FetchOutcome.NetworkError _ => State.rateLimit s
    end.
Proof.
  unfold handleSearch, H.try_catch_finally, handleSearch_try. cbn [fst snd].
  unfold mbind at 1, Handler_bind at 1, fetch.
  cbn [setVideoIdToURL World.set_session World.requests].
  destruct (FetchOutcome.reply _) as [m|response]; [reflexivity|].
  cbv zeta. unfold mbind at 1, Handler_bind at 1.
  destruct (JS.truthy _ && JS.truthy _);
    unfold H.setState, mret, Handler_ret;
    unfold mbind at 1, Handler_bind at 1, H.lift;
    (destruct (Response.json response) as [result|e]; [|reflexivity]);
    unfold mbind at 1, Handler_bind at 1;
    (destruct (Response.ok response); unfold H.throw; [|reflexivity]);
    (destruct (NetflixResponse.entities result); reflexivity).
Qed.

(** The batch search never writes the rate-limit state. *)
Lemma handleBatchSearch_rateLimit (server : Server) (ids : list string)
    (s : State.t) (w : World.t) :
  State.rateLimit (handleBatchSearch server ids (s, w)).1 = State.rateLimit s.
Proof.
  rewrite handleBatchSearch_run. cbv zeta.
  destruct (batch_failure _); [reflexivity|].
  destruct (omap first_entity _); reflexivity.
Qed.

(** C5. One request for one identifier, answered with both rate-limit
    headers (99 remaining of 100): through [handleSearch] the state becomes
    99 of 100; through [handleBatchSearch] it stays at its initial 100 of
    100. *)
Theorem C5_batch_ignores_rate_headers :
  let answer := Sample.server_ok (World.requests Sample.world) (metadata_url "80057281") in
  FetchOutcome.reply answer
    = FetchOutcome.Responded
        {| Response.ok := true;
           Response.headers := {[ "x-ratelimit-remaining" := "99";
                                  "x-ratelimit-limit" := "100" ]};
           Response.json := JS.Ok (Sample.found (metadata_url "80057281")) |}
  /\ State.rateLimit
       (handleSearch Sample.server_ok "80057281" (State.initial, Sample.world)).1
     = {| RateLimit.remaining := Some 99%Z; RateLimit.limit := Some 100%Z |}
  /\ State.rateLimit
       (handleBatchSearch Sample.server_ok ["80057281"] (State.initial, Sample.world)).1
     = {| RateLimit.remaining := Some 100%Z; RateLimit.limit := Some 100%Z |}
  /\ World.requests
       (handleBatchSearch Sample.server_ok ["80057281"] (State.initial, Sample.world)).2
     = [metadata_url "80057281"].
Proof.
  cbv zeta. split; [reflexivity|]. split; [|split].
  - rewrite handleSearch_rateLimit. reflexivity.
  - rewrite handleBatchSearch_rateLimit. reflexivity.
  - vm_compute. reflexivity.
Qed.

(** ** Countdown *)

Lemma Qfloor_Q_rem (d : Z) (k m : positive) (x : Q) :
  (0 <= d)%Z ->
  (x == d # k)%Q ->
  Qfloor (Q_rem x (inject_Z (Zpos m))) = ((d / Zpos k) mod Zpos m)%Z.
Proof.
  intros Hd Hx. unfold Q_rem.
  assert (Hq : (x / inject_Z (Zpos m) == d # (k * m))%Q).
  { rewrite Hx. unfold Qeq, Qdiv, Qmult, Qinv, inject_Z. cbn. lia. }
  assert (Hpos : Qle_bool 0 (x / inject_Z (Zpos m)) = true).
  { apply Qle_bool_iff. rewrite Hq. unfold Qle. cbn. lia. }
  rewrite Hpos, (Qfloor_comp _ _ Hq).
  change (Qfloor (d # (k * m))) with (d / Zpos (k * m))%Z.
  set (t := (d / Zpos (k * m))%Z).
  assert (Hr : (x - inject_Z (Zpos m) * inject_Z t == (d - Zpos (k * m) * t) # k)%Q).
  { rewrite Hx. unfold Qeq, Qminus, Qplus, Qopp, Qmult, inject_Z. cbn. lia. }
  rewrite (Qfloor_comp _ _ Hr).
  change (Qfloor ((d - Zpos (k * m) * t) # k)) with ((d - Zpos (k * m) * t) / Zpos k)%Z.
  replace (d - Zpos (k * m) * t)%Z with (d mod Zpos (k * m))%Z
    by (subst t; pose proof (Z.div_mod d (Zpos (k * m))); lia).
  rewrite Pos2Z.inj_mul, Z.rem_mul_r by lia.
  rewrite Z.mul_comm, Z.div_add by lia.
  rewrite Z.div_small by (apply Z.mod_pos_bound; lia). lia.
Qed.

Lemma Qdiv_inject (d : Z) (k : positive) :
  (inject_Z d / inject_Z (Zpos k) == d # k)%Q.
Proof. unfold Qeq, Qdiv, Qmult, Qinv, inject_Z. cbn [Qnum Qden]. lia. Qed.

Lemma Qdiv_Qmake (d : Z) (a b : positive) :
  ((d # a) / inject_Z (Zpos b) == d # (a * b))%Q.
Proof. unfold Qeq, Qdiv, Qmult, Qinv, inject_Z. cbn [Qnum Qden]. lia. Qed.

Lemma calculateTimeLeft_running (target now : Z) :
  (now < target)%Z ->
  let d := (target - now)%Z in
  calculateTimeLeft (Some target) now =
    {| TimeLeft.days := Some (d / 86400000)%Z;
       TimeLeft.hours := Some ((d / 3600000) mod 24)%Z;
       TimeLeft.minutes := Some ((d / 60000) mod 60)%Z;
       TimeLeft.seconds := Some ((d / 1000) mod 60)%Z;
       TimeLeft.isExpired := false |}.
Proof.
  intros Hlt d. unfold calculateTimeLeft. fold d.
  destruct (Z.leb_spec d 0) as [Hle|Hpos]; [subst d; lia|].
  f_equal; f_equal.
  - change (1000 * 60 * 60 * 24)%Z with 86400000%Z. symmetry. apply Zdiv_Qdiv.
  - apply (Qfloor_Q_rem d 3600000 24); [lia|].
    change (1000 * 60 * 60)%Z with 3600000%Z. apply Qdiv_inject.
  - apply (Qfloor_Q_rem d 60000 60); [lia|].
    change 60%Q with (inject_Z 60). change 1000%Q with (inject_Z 1000).
    rewrite Qdiv_inject. apply (Qdiv_Qmake d 1000 60).
  - apply (Qfloor_Q_rem d 1000 60); [lia|].
    change 1000%Q with (inject_Z 1000). apply Qdiv_inject.
Qed.

Lemma calculateTimeLeft_total (target now : Z) :
  (now < target)%Z ->
  total_seconds (calculateTimeLeft (Some target) now) = Some ((target - now) / 1000)%Z.
Proof.
  intros Hlt. rewrite calculateTimeLeft_running by exact Hlt. cbv zeta.
  unfold total_seconds. cbn. f_equal.
  set (d := (target - now)%Z). set (s := (d / 1000)%Z).
  replace (d / 86400000)%Z with (s / 86400)%Z
    by (subst s; rewrite Z.div_div by lia; reflexivity).
  replace (d / 3600000)%Z with (s / 3600)%Z
    by (subst s; rewrite Z.div_div by lia; reflexivity).
  replace (d / 60000)%Z with (s / 60)%Z
    by (subst s; rewrite Z.div_div by lia; reflexivity).
  replace (s / 86400)%Z with (s / 60 / 60 / 24)%Z by (rewrite !Z.div_div by lia; reflexivity).
  replace (s / 3600)%Z with (s / 60 / 60)%Z by (rewrite !Z.div_div by lia; reflexivity).
  pose proof (Z.div_mod s 60). pose proof (Z.div_mod (s / 60) 60).
  pose proof (Z.div_mod (s / 60 / 60) 24). lia.
Qed.

(** X1. While the target lies ahead, the countdown is not expired and its
    four values are the days, hours (0..23), minutes (0..59) and seconds
    (0..59) of the whole seconds left: they add up to the time left in
    milliseconds divided by 1000, rounded down. *)
Theorem countdown_decomposition (target now : Z) :
  (now < target)%Z ->
  let timeLeft := calculateTimeLeft (Some target) now in
  TimeLeft.isExpired timeLeft = false
  /\ exists d h m s,
       TimeLeft.days timeLeft = Some d /\ TimeLeft.hours timeLeft = Some h
       /\ TimeLeft.minutes timeLeft = Some m /\ TimeLeft.seconds timeLeft = Some s
       /\ (0 <= d /\ 0 <= h < 24 /\ 0 <= m < 60 /\ 0 <= s < 60)%Z
       /\ (((d * 24 + h) * 60 + m) * 60 + s = (target - now) / 1000)%Z.
Proof.
  intros Hlt timeLeft.
  pose proof (calculateTimeLeft_total target now Hlt) as Htotal. fold timeLeft in Htotal.
  subst timeLeft. rewrite calculateTimeLeft_running in * by exact Hlt. cbv zeta in *.
  split; [reflexivity|]. eexists _, _, _, _. repeat (split; [reflexivity|]).
  split.
  - repeat split; try (apply Z.mod_pos_bound; lia).
    apply Z.div_pos; lia.
  - unfold total_seconds in Htotal. cbn in Htotal. congruence.
Qed.

Lemma countdown_decomposition_witness :
  calculateTimeLeft (Some 1700000090061001%Z) 1700000000000000 =
    {| TimeLeft.days := Some 1%Z; TimeLeft.hours := Some 1%Z; TimeLeft.minutes := Some 1%Z;
       TimeLeft.seconds := Some 1%Z; TimeLeft.isExpired := false |}
  /\ (((1 * 24 + 1) * 60 + 1) * 60 + 1 = (1700000090061001 - 1700000000000000) / 1000)%Z.
Proof.
  split; [reflexivity|].
  destruct (countdown_decomposition 1700000090061001 1700000000000000 eq_refl)
    as (_ & d & h & m & s & Hd & Hh & Hm & Hs & _ & Hsum).
  injection Hd as <-. injection Hh as <-. injection Hm as <-. injection Hs as <-.
  exact Hsum.
Defined.

(** X2. The header shows a countdown exactly when the date is valid and lies
    strictly ahead of both readings of the clock, the one of the guard and
    the one of the timer; an invalid date, which the timer alone would print
    as NaN, is never shown. *)
Theorem countdown_shown_iff (target : option Z) (now tick : Z) :
  (is_Some (TitleHeader_countdown target now tick)
   <-> exists t, target = Some t /\ (now < t)%Z /\ (tick < t)%Z)
  /\ CountdownTimer (calculateTimeLeft None tick) = Some ["NaN"; "NaN"; "NaN"; "NaN"]
  /\ TitleHeader_countdown None now tick = None.
Proof.
  split; [|split; reflexivity].
  unfold TitleHeader_countdown, isFutureDate.
  destruct target as [t|].
  - destruct (Z.ltb_spec now t) as [Hnow|Hnow].
    + unfold CountdownTimer, calculateTimeLeft.
      destruct (Z.leb_spec (t - tick) 0) as [Hexp|Hrun]; cbn [TimeLeft.isExpired].
      * split; [intros [x Hx]; discriminate|].
        intros (t' & Ht & _ & Htick). injection Ht as <-. lia.
      * split; [intros _; exists t; repeat split; lia | intros _; eexists; reflexivity].
    + split; [intros [x Hx]; discriminate|].
      intros (t' & Ht & Hlt & _). injection Ht as <-. lia.
  - split; [intros [x Hx]; discriminate | intros (t' & Ht & _); discriminate].
Qed.

(** X3. A second later the countdown stands for exactly one whole second
    less, as long as the target is still ahead; once the target is reached
    the countdown is expired, shows nothing, and stays so as time goes on. *)
Theorem countdown_progress (target now : Z) :
  ((now + 1000 < target)%Z ->
   total_seconds (calculateTimeLeft (Some target) (now + 1000)) =
     (fun s => (s - 1)%Z) <$> total_seconds (calculateTimeLeft (Some target) now))
  /\ ((target <= now)%Z ->
      forall later, (now <= later)%Z ->
        TimeLeft.isExpired (calculateTimeLeft (Some target) later) = true
        /\ CountdownTimer (calculateTimeLeft (Some target) later) = None).
Proof.
  split.
  - intros Hlt. rewrite !calculateTimeLeft_total by lia. cbn. f_equal.
    replace (target - (now + 1000))%Z with (target - now + (-1) * 1000)%Z by lia.
    rewrite Z.div_add by lia. lia.
  - intros Hreached later Hlater. unfold CountdownTimer, calculateTimeLeft.
    destruct (Z.leb_spec (target - later) 0); [split; reflexivity | lia].
Qed.

Lemma countdown_progress_witness :
  total_seconds (calculateTimeLeft (Some 3600000%Z) 1000) = Some 3599%Z
  /\ CountdownTimer (calculateTimeLeft (Some 3600000%Z) 3600000) = None.
Proof.
  destruct (countdown_progress 3600000 0) as [Htick _].
  destruct (countdown_progress 3600000 3600000) as [_ Hdone].
  split.
  - exact (Htick eq_refl).
  - apply (Hdone (Z.le_refl _) 3600000%Z (Z.le_refl _)).
Defined.

Lemma fill_length (n : nat) (c : ascii) : String.length (JSString.fill n c) = n.
Proof. induction n as [|n IH]; [reflexivity|]. cbn. by rewrite IH. Qed.

Lemma append_length (a b : string) :
  String.length (a +:+ b) = String.length a + String.length b.
Proof.
  induction a as [|x a IH]; [reflexivity|].
  rewrite append_cons. cbn [String.length]. by rewrite IH.
Qed.

Lemma padStart_length (n : nat) (c : ascii) (s : string) :
  String.length (JSString.padStart n c s) = Nat.max n (String.length s).
Proof. unfold JSString.padStart. rewrite append_length, fill_length. lia. Qed.

Lemma toString_two_digits (n : Z) :
  (0 <= n < 100)%Z -> String.length (JS.toString n) <= 2.
Proof.
  intros Hn. rewrite <- (Z2Nat.id n) by lia.
  assert (Hk : Z.to_nat n < 100) by lia. revert Hk. generalize (Z.to_nat n) as k.
  intros k Hk.
  do 100 (destruct k as [|k]; [vm_compute; lia|]). lia.
Qed.

(** X4. A running countdown shows four values; hours, minutes and seconds
    take exactly two characters each and the days at least two. *)
Theorem countdown_two_characters (target now : Z) :
  (now < target)%Z ->
  exists d h m s,
    CountdownTimer (calculateTimeLeft (Some target) now) = Some [d; h; m; s]
    /\ 2 <= String.length d
    /\ String.length h = 2 /\ String.length m = 2 /\ String.length s = 2.
Proof.
  intros Hlt. rewrite calculateTimeLeft_running by exact Hlt. cbv zeta.
  unfold CountdownTimer. cbn [TimeLeft.isExpired TimeLeft.days TimeLeft.hours
                               TimeLeft.minutes TimeLeft.seconds].
  eexists _, _, _, _. split; [reflexivity|].
  rewrite !padStart_length. cbn [JSString.number_toString].
  assert (H24 : (0 <= ((target - now) / 3600000) mod 24 < 100)%Z)
    by (pose proof (Z.mod_pos_bound ((target - now) / 3600000) 24); lia).
  assert (H60 : (0 <= ((target - now) / 60000) mod 60 < 100)%Z)
    by (pose proof (Z.mod_pos_bound ((target - now) / 60000) 60); lia).
  assert (H60' : (0 <= ((target - now) / 1000) mod 60 < 100)%Z)
    by (pose proof (Z.mod_pos_bound ((target - now) / 1000) 60); lia).
  apply toString_two_digits in H24, H60, H60'. lia.
Qed.

Lemma countdown_two_characters_witness :
  exists d h m s,
    CountdownTimer (calculateTimeLeft (Some 8640000000000%Z) 5) = Some [d; h; m; s]
    /\ 2 <= String.length d
    /\ String.length h = 2 /\ String.length m = 2 /\ String.length s = 2.
Proof. apply (countdown_two_characters 8640000000000 5). reflexivity. Defined.

(** ** [trim] and [split] *)

Lemma append_nil_r (s : string) : s +:+ "" = s.
Proof. induction s as [|c s IH]; [reflexivity|]. by rewrite append_cons, IH. Qed.

Lemma includes_char_cons (c x : ascii) (r : string) :
  JS.includes (String x r) (String c "") = Ascii.eqb c x || JS.includes r (String c "").
Proof. cbn [JS.includes JS.startsWith]. by destruct (Ascii.eqb c x). Qed.

Lemma includes_char_app (c : ascii) (a b : string) :
  JS.includes (a +:+ b) (String c "")
  = JS.includes a (String c "") || JS.includes b (String c "").
Proof.
  induction a as [|x a IH].
  - change ("" +:+ b) with b. by destruct (JS.includes b _).
  - rewrite append_cons, !includes_char_cons, IH. by rewrite orb_assoc.
Qed.

Lemma strip_space_app (x x' y : string) :
  JSString.strip_space x = Some x' -> JSString.strip_space (x +:+ y) = Some (x' +:+ y).
Proof.
  intros Hx. destruct x as [|a x]; [discriminate|].
  rewrite append_cons. cbn [JSString.strip_space] in *.
  destruct (JSString.is_space1 _); [by injection Hx as <-|].
  destruct x as [|b x]; [discriminate|]. rewrite append_cons.
  destruct (JSString.is_space2 _ _); [by injection Hx as <-|].
  destruct x as [|c x]; [discriminate|]. rewrite append_cons.
  destruct (JSString.is_space3 _ _ _); [by injection Hx as <- | discriminate].
Qed.

Lemma strip_space_suffix (s r : string) :
  JSString.strip_space s = Some r ->
  exists p, s = p +:+ r /\ String.length r < String.length s.
Proof.
  intros Hs. destruct s as [|a s]; [discriminate|]. cbn [JSString.strip_space] in Hs.
  destruct (JSString.is_space1 _).
  { injection Hs as <-. exists (String a ""). split; [reflexivity | cbn; lia]. }
  destruct s as [|b s]; [discriminate|].
  destruct (JSString.is_space2 _ _).
  { injection Hs as <-. exists (String a (String b "")). split; [reflexivity | cbn; lia]. }
  destruct s as [|c s]; [discriminate|].
  destruct (JSString.is_space3 _ _ _); [|discriminate].
  injection Hs as <-. exists (String a (String b (String c ""))).
  split; [reflexivity | cbn; lia].
Qed.

Lemma trimStart_unfold (s : string) :
  JSString.trimStart s =
    match JSString.strip_space s with
    | Some r => JSString.trimStart r
    | None => s
    end.
Proof.
  destruct s as [|a s]; [reflexivity|].
  cbn [JSString.trimStart JSString.strip_space].
  destruct (JSString.is_space1 _); [reflexivity|].
  destruct s as [|b s]; [reflexivity|].
  destruct (JSString.is_space2 _ _); [reflexivity|].
  destruct s as [|c s]; [reflexivity|].
  destruct (JSString.is_space3 _ _ _); reflexivity.
Qed.

(** What [trimStart] leaves is the end of the text, starts with no white
    space, and is what it leaves of any longer text when it is empty. *)
Lemma trimStart_spec (n : nat) (s : string) :
  String.length s <= n ->
  (exists p, s = p +:+ JSString.trimStart s)
  /\ JSString.strip_space (JSString.trimStart s) = None
  /\ (forall y, JSString.trimStart s = "" ->
        JSString.trimStart (s +:+ y) = JSString.trimStart y).
Proof.
  revert s. induction n as [|n IH]; intros s Hlen.
  - destruct s; [|cbn in Hlen; lia]. split; [by exists ""|]. by split.
  - rewrite (trimStart_unfold s). destruct (JSString.strip_space s) as [r|] eqn:Hstrip.
    + destruct (strip_space_suffix s r Hstrip) as (p & -> & Hshorter).
      destruct (IH r ltac:(lia)) as ((p' & Hp') & Hfixed & Happ).
      split; [|split].
      * exists (p +:+ p'). by rewrite append_assoc, <- Hp'.
      * exact Hfixed.
      * intros y Hempty. rewrite (trimStart_unfold (_ +:+ y)).
        rewrite (strip_space_app _ _ y Hstrip). by apply Happ.
    + split; [by exists ""|]. split; [exact Hstrip|]. by intros y ->.
Qed.

Lemma trimEnd_unfold (a : ascii) (r : string) :
  JSString.trimEnd (String a r) =
    match JSString.trimStart (String a r) with
    | EmptyString => EmptyString
    | _ => String a (JSString.trimEnd r)
    end.
Proof. reflexivity. Qed.

(** What [trimEnd] cuts off is white space only. *)
Lemma trimEnd_prefix (s : string) :
  exists w, s = JSString.trimEnd s +:+ w /\ JSString.trimStart w = "".
Proof.
  induction s as [|a r (w & Hw & Hspace)]; [by exists ""|].
  rewrite trimEnd_unfold. destruct (JSString.trimStart (String a r)) eqn:Hall.
  - by exists (String a r).
  - exists w. split; [|exact Hspace]. by rewrite append_cons, <- Hw.
Qed.

Lemma trimEnd_idem (s : string) : JSString.trimEnd (JSString.trimEnd s) = JSString.trimEnd s.
Proof.
  induction s as [|a r IH]; [reflexivity|].
  rewrite trimEnd_unfold. destruct (JSString.trimStart (String a r)) eqn:Hall; [reflexivity|].
  rewrite trimEnd_unfold.
  destruct (JSString.trimStart (String a (JSString.trimEnd r))) eqn:Hcut; [|by rewrite IH].
  exfalso. destruct (trimEnd_prefix r) as (w & Hw & Hspace).
  destruct (trimStart_spec _ (String a (JSString.trimEnd r)) (Nat.le_refl _))
    as (_ & _ & Happ).
  specialize (Happ w Hcut). rewrite append_cons, <- Hw, Hall, Hspace in Happ. discriminate.
Qed.

Lemma trim_idem (s : string) : JSString.trim (JSString.trim s) = JSString.trim s.
Proof.
  unfold JSString.trim.
  destruct (trimStart_spec _ s (Nat.le_refl _)) as (_ & Hfixed & _).
  set (t := JSString.trimStart s) in *.
  assert (Hkept : JSString.trimStart (JSString.trimEnd t) = JSString.trimEnd t).
  { rewrite trimStart_unfold.
    destruct (JSString.strip_space (JSString.trimEnd t)) as [r|] eqn:Hstrip; [|reflexivity].
    destruct (trimEnd_prefix t) as (w & Hw & _).
    apply (strip_space_app _ _ w) in Hstrip. rewrite <- Hw in Hstrip. congruence. }
  rewrite Hkept. apply trimEnd_idem.
Qed.

Lemma includes_char_trimStart (c : ascii) (s : string) :
  JS.includes s (String c "") = false ->
  JS.includes (JSString.trimStart s) (String c "") = false.
Proof.
  destruct (trimStart_spec _ s (Nat.le_refl _)) as ((p & Hp) & _).
  intros Hs. rewrite Hp, includes_char_app in Hs. by apply orb_false_elim in Hs as [_ ?].
Qed.

Lemma includes_char_trimEnd (c : ascii) (s : string) :
  JS.includes s (String c "") = false ->
  JS.includes (JSString.trimEnd s) (String c "") = false.
Proof.
  destruct (trimEnd_prefix s) as (w & Hw & _).
  intros Hs. rewrite Hw, includes_char_app in Hs. by apply orb_false_elim in Hs as [? _].
Qed.

Lemma split_char_pieces (c : ascii) (s piece : string) :
  JS.includes piece (String c "") = false ->
  Forall (fun p => JS.includes p (String c "") = false)
    (JSString.split_from (String c "") s 0 piece).
Proof.
  revert piece. induction s as [|x s IH]; intros piece Hpiece.
  - by constructor.
  - cbn [JSString.split_from JS.startsWith String.length Nat.sub].
    destruct (Ascii.eqb_spec c x) as [->|Hne].
    + constructor; [exact Hpiece | by apply IH].
    + apply IH. rewrite includes_char_app, Hpiece, includes_char_cons.
      by destruct (Ascii.eqb_spec c x).
Qed.

Lemma split_from_skip (sep t rest piece : string) :
  JSString.split_from sep (t +:+ rest) (String.length t) piece
  = JSString.split_from sep rest 0 piece.
Proof.
  induction t as [|x t IH]; [reflexivity|].
  rewrite append_cons. cbn [String.length JSString.split_from]. exact IH.
Qed.

Lemma split_from_cons (sep s : string) (skip : nat) (piece : string) :
  exists p ps, JSString.split_from sep s skip piece = p :: ps.
Proof.
  revert skip piece. induction s as [|x s IH]; intros skip piece.
  - by eexists _, _.
  - cbn [JSString.split_from]. destruct skip; [|apply IH].
    destruct (JS.startsWith sep (String x s)); [by eexists _, _ | apply IH].
Qed.

Lemma join_cons (sep x y : string) (l : list string) :
  JS.join sep (x :: y :: l) = x +:+ sep +:+ JS.join sep (y :: l).
Proof. reflexivity. Qed.

Lemma split_from_join (sep : string) (n : nat) :
  sep <> "" ->
  forall s piece, String.length s <= n ->
    JS.join sep (JSString.split_from sep s 0 piece) = piece +:+ s.
Proof.
  intros Hsep. induction n as [|n IH]; intros s piece Hlen.
  - destruct s; [|cbn in Hlen; lia]. cbn. by rewrite append_nil_r.
  - destruct s as [|x s]; [cbn; by rewrite append_nil_r|].
    cbn [JSString.split_from].
    destruct (JS.startsWith sep (String x s)) eqn:Hstart.
    + apply startsWith_spec in Hstart as [after Hafter].
      destruct sep as [|a sep']; [congruence|].
      rewrite append_cons in Hafter. injection Hafter as <- ->.
      cbn [String.length]. replace (S (String.length sep') - 1) with (String.length sep') by lia.
      rewrite split_from_skip.
      destruct (split_from_cons (String x sep') after 0 "") as (p & ps & Hsplit).
      pose proof (IH after "") as Hjoin. rewrite Hsplit in *.
      rewrite join_cons, Hjoin.
      * by rewrite append_cons.
      * cbn [String.length] in Hlen. rewrite append_length in Hlen. lia.
    + rewrite IH by (cbn [String.length] in Hlen; lia).
      by rewrite append_assoc.
Qed.

Lemma split_join (sep s : string) : sep <> "" -> JS.join sep (JSString.split sep s) = s.
Proof. intros Hsep. apply (split_from_join sep (String.length s) Hsep s ""). lia. Qed.

Lemma split_from_absent (sep s piece : string) :
  JS.includes s sep = false -> JSString.split_from sep s 0 piece = [piece +:+ s].
Proof.
  revert piece. induction s as [|x s IH]; intros piece Habsent.
  - cbn. by rewrite append_nil_r.
  - cbn [JS.includes] in Habsent. apply orb_false_elim in Habsent as [Hstart Hrest].
    cbn [JSString.split_from]. rewrite Hstart, IH by exact Hrest.
    by rewrite append_assoc.
Qed.

(** ** Submitting the search form *)

Lemma trim_no_comma (s : string) :
  JS.includes s "," = false -> JS.includes (JSString.trim s) "," = false.
Proof.
  intros Hs. unfold JSString.trim.
  by apply includes_char_trimEnd, includes_char_trimStart.
Qed.

Lemma batch_ids_wellformed (trimmed : string) :
  Forall (fun id => id <> "" /\ JSString.trim id = id /\ JS.includes id "," = false)
    (List.filter nonempty (map JSString.trim (JSString.split "," trimmed))).
Proof.
  apply List.Forall_forall. intros id [Hin Hne]%filter_In.
  apply in_map_iff in Hin as (piece & <- & Hpiece).
  pose proof (split_char_pieces "," trimmed "" eq_refl) as Hpieces.
  rewrite List.Forall_forall in Hpieces. specialize (Hpieces piece Hpiece).
  split; [|split].
  - intros Hempty. by rewrite Hempty in Hne.
  - apply trim_idem.
  - by apply trim_no_comma.
Qed.

(** X5. Submitting the form dispatches nothing for a blank input and leaves
    the history dropdown as it was.  A single search is dispatched only
    outside batch mode, for the trimmed input, which is then not empty and
    holds no comma.  A batch is dispatched with a non-empty list of
    identifiers, each not empty, free of commas and of surrounding white
    space.  Every non-blank submission closes the dropdown. *)
Theorem handleSubmit_dispatch (isBatchMode : bool) (videoId : string) (showHistory : bool) :
  match handleSubmit isBatchMode videoId showHistory with
  | (NoDispatch, shown) =>
      shown = if nonempty (JSString.trim videoId) then false else showHistory
  | (onSearch id, shown) =>
      shown = false /\ isBatchMode = false
      /\ id = JSString.trim videoId /\ id <> "" /\ JS.includes id "," = false
  | (onBatchSearch ids, shown) =>
      shown = false /\ ids <> []
      /\ ids = List.filter nonempty
                 (map JSString.trim (JSString.split "," (JSString.trim videoId)))
      /\ Forall (fun id => id <> "" /\ JSString.trim id = id /\ JS.includes id "," = false)
           ids
  end.
Proof.
  unfold handleSubmit. destruct (JSString.trim videoId) as [|c r] eqn:Htrim; [reflexivity|].
  destruct (isBatchMode || JS.includes (String c r) ",") eqn:Hbatch.
  - pose proof (batch_ids_wellformed (String c r)) as Hids.
    destruct (List.filter nonempty _) as [|id ids]; [reflexivity|].
    repeat split; [discriminate | exact Hids].
  - apply orb_false_elim in Hbatch as [-> Hcomma]. repeat split; [discriminate | exact Hcomma].
Qed.

(** No-break spaces (U+00A0) and a byte order mark (U+FEFF) around the
    input are trimmed like blanks. *)
Example handleSubmit_no_break_space :
  let nbsp := String (ascii_of_nat 194) (String (ascii_of_nat 160) "") in
  let bom := String (ascii_of_nat 239) (String (ascii_of_nat 187) (String (ascii_of_nat 191) "")) in
  handleSubmit false (nbsp +:+ "80057281" +:+ bom +:+ nbsp) true = (onSearch "80057281", false)
  /\ handleSubmit false (nbsp +:+ " " +:+ bom) true = (NoDispatch, true)
  /\ handleSubmit false ("70143836," +:+ nbsp +:+ ", 80057281" +:+ nbsp) true
     = (onBatchSearch ["70143836"; "80057281"], false).
Proof. by vm_compute. Qed.

(** ** Genre tags *)

Lemma split_from_present (sep s piece : string) :
  sep <> "" ->
  JS.includes s sep = true ->
  exists p q qs, JSString.split_from sep s 0 piece = p :: q :: qs.
Proof.
  intros Hsep. revert piece. induction s as [|x s IH]; intros piece Hin.
  - destruct sep; [congruence | discriminate].
  - cbn [JS.includes] in Hin. cbn [JSString.split_from].
    destruct (JS.startsWith sep (String x s)).
    + destruct (split_from_cons sep s (String.length sep - 1) "") as (q & qs & ->).
      by eexists _, _, _.
    + by apply IH.
Qed.

(** X6. [GenreTags] shows nothing without text evidence; otherwise it shows
    at least one tag, the tags joined by ", " give back the text of the
    first evidence, a text without ", " is one tag, and a text with it is
    more than one. *)
Theorem GenreTags_split (textEvidence : option (list TextEvidence.t)) :
  match textEvidence with
  | Some (first :: _) =>
      exists tag tags,
        GenreTags textEvidence = Some (tag :: tags)
        /\ JS.join ", " (tag :: tags) = TextEvidence.text first
        /\ (if JS.includes (TextEvidence.text first) ", " then tags <> []
            else tag = TextEvidence.text first /\ tags = [])
  | _ => GenreTags textEvidence = None
  end.
Proof.
  destruct textEvidence as [[|first rest]|]; try reflexivity.
  cbn [GenreTags].
  pose proof (split_join ", " (TextEvidence.text first) ltac:(discriminate)) as Hjoin.
  unfold JSString.split in *.
  destruct (JS.includes (TextEvidence.text first) ", ") eqn:Hsep.
  - destruct (split_from_present ", " (TextEvidence.text first) "" ltac:(discriminate) Hsep)
      as (p & q & qs & Hsplit).
    rewrite Hsplit in *. exists p, (q :: qs). by repeat split.
  - rewrite split_from_absent in * by exact Hsep.
    eexists _, _. split; [reflexivity|]. split; [exact Hjoin|]. by split.
Qed.

(** ** The single-search handler *)

(** The five ways a single search ends. *)
Lemma handleSearch_run (server : Server) (videoId : string) (s : State.t) (w : World.t) :
  let outcome := server (World.requests w) (metadata_url videoId) in
  let w1 := World.request (metadata_url videoId) (FetchOutcome.latency outcome)
              (setVideoIdToURL videoId w) in
  handleSearch server videoId (s, w) =
    match FetchOutcome.reply outcome with
    | FetchOutcome.NetworkError m => search_failed m (start_loading s) w1
    | FetchOutcome.Responded response =>
        let s1 := State.set_rateLimit (rate_after response (State.rateLimit s))
                    (start_loading s) in
        match Response.json response with
        | JS.Throw e => search_failed (JS.message e) s1 w1
        | JS.Ok result =>
            if Response.ok response
            then
              match NetflixResponse.entities result with
              | [] => search_failed "No content found for this Video ID" s1 w1
              | entity :: _ =>
                  let history :=
                    addToHistory_updated (World.Date_now w1) videoId
                      (NetflixEntity.title entity) (State.history s) in
                  let analytics :=
                    trackSearch_updated videoId
                      (JS.Math_round (World.performance_now w1 - World.performance_now w)%Q)
                      (State.analytics s) in
                  let storage :=
                    setToStorage
                      (setToStorage (World.localStorage w) STORAGE_KEYS.HISTORY history)
                      STORAGE_KEYS.ANALYTICS analytics in
                  (State.set_isLoading false
                     (State.set_data (Some result)
                        (State.set_analytics analytics (State.set_history history s1))),
                   World.toast (toast_success ("Found: " +:+ NetflixEntity.title entity))
                     (World.set_localStorage storage w1))
              end
            else
              search_failed
                (JS.or_else (default "" (NetflixResponse.error result))
                   "Failed to fetch metadata") s1 w1
        end
    end.
Proof.
  cbv zeta. unfold handleSearch, H.try_catch_finally, handleSearch_try, search_failed.
  cbn [fst snd].
  unfold mbind at 1, Handler_bind at 1, fetch.
  cbn [setVideoIdToURL World.set_session World.requests].
  destruct (FetchOutcome.reply _) as [m|response]; [reflexivity|].
  cbv zeta. unfold rate_after. unfold mbind at 1, Handler_bind at 1.
  destruct (JS.truthy _ && JS.truthy _);
    unfold H.setState, mret, Handler_ret;
    unfold mbind at 1, Handler_bind at 1, H.lift;
    (destruct (Response.json response) as [result|e]; [|by destruct s]);
    unfold mbind at 1, Handler_bind at 1;
    (destruct (Response.ok response); unfold H.throw; [|by destruct s]);
    (destruct (NetflixResponse.entities result); by destruct s).
Qed.

Lemma getVideoIdFromURL_written (videoId : string) (w : World.t) :
  getVideoIdFromURL (setVideoIdToURL videoId w) = videoId.
Proof.
  unfold setVideoIdToURL, getVideoIdFromURL.
  cbn [World.session World.set_session History.pushState History.current URL.searchParams].
  destruct videoId.
  - by rewrite URLSearchParams_get_delete.
  - by rewrite URLSearchParams_get_set.
Qed.

(** X7. Every single search, however it ends, issues exactly one request,
    writes its identifier to the URL before that, clears the comparison and
    ends with the loading flag off.  A search that ends on an error shows
    no entity, notifies the error once, and leaves the search history, the
    analytics and the store as they were. *)
Theorem handleSearch_failure_frame (server : Server) (videoId : string)
    (s : State.t) (w : World.t) :
  let sw' := handleSearch server videoId (s, w) in
  State.isLoading sw'.1 = false
  /\ State.comparisonData sw'.1 = []
  /\ World.requests sw'.2 = (World.requests w ++ [metadata_url videoId])%list
  /\ getVideoIdFromURL sw'.2 = videoId
  /\ History.back (World.session sw'.2)
     = History.current (World.session w) :: History.back (World.session w)
  /\ match State.error sw'.1 with
     | Some m =>
         State.data sw'.1 = None
         /\ State.history sw'.1 = State.history s
         /\ State.analytics sw'.1 = State.analytics s
         /\ World.localStorage sw'.2 = World.localStorage w
         /\ World.toasts sw'.2 = (World.toasts w ++ [toast_error m])%list
     | None => exists result, State.data sw'.1 = Some result
     end.
Proof.
  cbv zeta. rewrite handleSearch_run. cbv zeta.
  pose proof (getVideoIdFromURL_written videoId w) as Hurl.
  destruct (FetchOutcome.reply _) as [m|response]; [by repeat split|].
  destruct (Response.json response) as [result|e]; [|by repeat split].
  destruct (Response.ok response); [|by repeat split].
  destruct (NetflixResponse.entities result) as [|entity rest]; [by repeat split|].
  repeat split; try done. by eexists.
Qed.

(** X8. How a single search classifies its failures: a transport failure
    and an unparseable body show their own message; a non-success status
    shows the error message of the body, or "Failed to fetch metadata" when
    the body has none or an empty one, and does so even when the body
    carries entities; a success status without entities shows "No content
    found for this Video ID". *)
Theorem handleSearch_error_message (server : Server) (videoId : string)
    (s : State.t) (w : World.t) :
  let reply := FetchOutcome.reply (server (World.requests w) (metadata_url videoId)) in
  let shown := State.error (handleSearch server videoId (s, w)).1 in
  (forall m, reply = FetchOutcome.NetworkError m -> shown = Some m)
  /\ (forall response e,
        reply = FetchOutcome.Responded response ->
        Response.json response = JS.Throw e -> shown = Some (JS.message e))
  /\ (forall response result,
        reply = FetchOutcome.Responded response ->
        Response.json response = JS.Ok result ->
        Response.ok response = false ->
        shown = Some match NetflixResponse.error result with
                     | Some (String c m) => String c m
                     | _ => "Failed to fetch metadata"
                     end)
  /\ (forall response result,
        reply = FetchOutcome.Responded response ->
        Response.json response = JS.Ok result ->
        Response.ok response = true ->
        shown = match NetflixResponse.entities result with
                | [] => Some "No content found for this Video ID"
                | _ => None
                end).
Proof.
  cbv zeta. rewrite handleSearch_run. cbv zeta.
  split; [|split; [|split]].
  - intros m ->. reflexivity.
  - intros response e -> ->. reflexivity.
  - intros response result -> -> ->. cbn.
    by destruct (NetflixResponse.error result) as [[|c m]|].
  - intros response result -> -> ->.
    by destruct (NetflixResponse.entities result).
Qed.

Lemma handleSearch_error_message_witness :
  State.error (handleSearch Sample.server_offline "80057281"
                 (State.initial, Sample.world)).1 = Some "Failed to fetch"
  /\ State.error (handleSearch Sample.server_garbled_first "A"
                    (State.initial, Sample.world)).1
     = Some "Unexpected token < in JSON at position 0"
  /\ State.error (handleSearch (Sample.server_error (Some "")) "80057281"
                    (State.initial, Sample.world)).1 = Some "Failed to fetch metadata"
  /\ State.error (handleSearch Sample.server_error_with_entity "80057281"
                    (State.initial, Sample.world)).1 = Some "Failed to fetch metadata"
  /\ State.error (handleSearch Sample.server_empty "80057281"
                    (State.initial, Sample.world)).1
     = Some "No content found for this Video ID".
Proof.
  split; [|split; [|split; [|split]]].
  - destruct (handleSearch_error_message Sample.server_offline "80057281"
                State.initial Sample.world) as (Hnet & _).
    exact (Hnet _ eq_refl).
  - destruct (handleSearch_error_message Sample.server_garbled_first "A"
                State.initial Sample.world) as (_ & Hparse & _).
    exact (Hparse _ _ eq_refl eq_refl).
  - destruct (handleSearch_error_message (Sample.server_error (Some "")) "80057281"
                State.initial Sample.world) as (_ & _ & Hstatus & _).
    by rewrite (Hstatus _ _ eq_refl eq_refl eq_refl).
  - destruct (handleSearch_error_message Sample.server_error_with_entity "80057281"
                State.initial Sample.world) as (_ & _ & Hstatus & _).
    by rewrite (Hstatus _ _ eq_refl eq_refl eq_refl).
  - destruct (handleSearch_error_message Sample.server_empty "80057281"
                State.initial Sample.world) as (_ & _ & _ & Hempty).
    by rewrite (Hempty _ _ eq_refl eq_refl eq_refl).
Defined.

(** X9. A single search that ends without error took the first entity of
    the answer: the answer is the data shown, the search history starts with
    the identifier and that entity's title stamped with the time of the
    answer, the newest recent search is the identifier with the time elapsed
    since the request, the total grew by one, and one message names the
    title. *)
Theorem handleSearch_success (server : Server) (videoId : string)
    (s : State.t) (w : World.t) :
  let sw' := handleSearch server videoId (s, w) in
  State.error sw'.1 = None ->
  exists response result entity rest,
    FetchOutcome.reply (server (World.requests w) (metadata_url videoId))
      = FetchOutcome.Responded response
    /\ Response.ok response = true
    /\ Response.json response = JS.Ok result
    /\ NetflixResponse.entities result = entity :: rest
    /\ State.data sw'.1 = Some result
    /\ head (State.history sw'.1)
       = Some {| SearchHistoryItem.id := videoId;
                 SearchHistoryItem.title := NetflixEntity.title entity;
                 SearchHistoryItem.timestamp := World.Date_now sw'.2 |}
    /\ head (AnalyticsData.recentSearches (State.analytics sw'.1))
       = Some {| RecentSearch.id := videoId;
                 RecentSearch.time :=
                   JS.Math_round (World.performance_now sw'.2 - World.performance_now w)%Q |}
    /\ AnalyticsData.totalSearches (State.analytics sw'.1)
       = (AnalyticsData.totalSearches (State.analytics s) + 1)%Z
    /\ World.toasts sw'.2
       = (World.toasts w ++ [toast_success ("Found: " +:+ NetflixEntity.title entity)])%list.
Proof.
  cbv zeta. rewrite handleSearch_run. cbv zeta.
  destruct (FetchOutcome.reply _) as [m|response]; [discriminate|].
  destruct (Response.json response) as [result|e] eqn:Hjson; [|discriminate].
  destruct (Response.ok response) eqn:Hok; [|discriminate].
  destruct (NetflixResponse.entities result) as [|entity rest] eqn:Hentities; [discriminate|].
  intros _. exists response, result, entity, rest. by repeat split.
Qed.

Lemma handleSearch_success_witness :
  State.error (handleSearch Sample.server_ok "80057281" (State.initial, Sample.world)).1 = None
  /\ exists entity,
       head (State.history
               (handleSearch Sample.server_ok "80057281" (State.initial, Sample.world)).1)
       = Some {| SearchHistoryItem.id := "80057281";
                 SearchHistoryItem.title := NetflixEntity.title entity;
                 SearchHistoryItem.timestamp := 1700000000120 |}.
Proof.
  split; [reflexivity|].
  destruct (handleSearch_success Sample.server_ok "80057281" State.initial Sample.world eq_refl)
    as (response & result & entity & rest & _ & _ & _ & _ & _ & Hhead & _).
  exists entity. exact Hhead.
Defined.

(** ** More on the batch handler *)

Lemma omap_length_le {A B} (f : A -> option B) (l : list A) :
  length (omap f l) <= length l.
Proof.
  induction l as [|x l IH]; [reflexivity|].
  cbn. destruct (f x); cbn; lia.
Qed.

Lemma handleBatchSearch_requests (server : Server) (ids : list string)
    (s : State.t) (w : World.t) :
  World.requests (handleBatchSearch server ids (s, w)).2 =
    (World.requests w
     ++ map metadata_url
          (take (answered (responses server (World.requests w) (take 4 ids))) (take 4 ids)))%list.
Proof.
  rewrite handleBatchSearch_run. cbv zeta.
  rewrite <- (batch_world_requests w (take 4 ids)) by apply responses_length.
  destruct (batch_failure _); [reflexivity|].
  destruct (omap first_entity _); reflexivity.
Qed.

Lemma handleSearch_requests (server : Server) (videoId : string) (s : State.t) (w : World.t) :
  World.requests (handleSearch server videoId (s, w)).2
  = (World.requests w ++ [metadata_url videoId])%list.
Proof.
  rewrite handleSearch_run. cbv zeta.
  destruct (FetchOutcome.reply _) as [m|response]; [reflexivity|].
  destruct (Response.json response) as [result|e]; [|reflexivity].
  destruct (Response.ok response); [|reflexivity].
  destruct (NetflixResponse.entities result); reflexivity.
Qed.

(** X10. A batch search never writes the search history or the URL; it
    clears the single-search data ([setData(null)]), whatever they were, and
    it ends with the loading flag off.
    When it ends on an error, nothing is compared and the analytics and the
    store are as they were; when it ends without one, between one and four
    entities are compared and one message gives their number. *)
Theorem handleBatchSearch_frame (server : Server) (ids : list string)
    (s : State.t) (w : World.t) :
  let sw' := handleBatchSearch server ids (s, w) in
  State.history sw'.1 = State.history s
  /\ World.session sw'.2 = World.session w
  /\ State.data sw'.1 = None
  /\ State.isLoading sw'.1 = false
  /\ match State.error sw'.1 with
     | Some m =>
         State.comparisonData sw'.1 = []
         /\ State.analytics sw'.1 = State.analytics s
         /\ World.localStorage sw'.2 = World.localStorage w
         /\ World.toasts sw'.2 = (World.toasts w ++ [toast_error m])%list
     | None =>
         1 <= length (State.comparisonData sw'.1) <= 4
         /\ World.toasts sw'.2
            = (World.toasts w
               ++ [toast_success
                     ("Comparing "
                        +:+ JS.toString (Z.of_nat (length (State.comparisonData sw'.1)))
                        +:+ " titles")])%list
     end.
Proof.
  cbv zeta. rewrite handleBatchSearch_run. cbv zeta.
  set (outs := responses server (World.requests w) (take 4 ids)).
  destruct (batch_world_frame w (take 4 ids) outs) as (Hstore & Hsession & Htoasts & _).
  destruct (batch_failure outs) as [e|].
  { cbn. rewrite Hstore, Hsession, Htoasts. by repeat split. }
  pose proof (omap_length_le first_entity outs) as Hfound.
  assert (Hlen : length outs <= 4).
  { subst outs. rewrite responses_length, length_take. lia. }
  destruct (omap first_entity outs) as [|entity entities].
  { cbn. rewrite Hstore, Hsession, Htoasts. by repeat split. }
  cbn [fst snd State.history State.set_isLoading State.set_comparisonData State.set_analytics
       start_loading State.set_data State.set_error State.data State.isLoading State.error
       State.comparisonData World.session World.toast World.set_localStorage World.toasts].
  rewrite Hsession, Htoasts. repeat split; cbn [length] in *; lia.
Qed.

(** X11. An answer with a non-success status whose body carries an entity
    is a failure for the single search, which shows no data, and a hit for
    the batch search on the same identifier, which shows the entity. *)
Theorem non_success_status_with_entity (server : Server) (id : string)
    (s : State.t) (w : World.t) (response : Response.t) (result : NetflixResponse.t)
    (entity : NetflixEntity.t) (rest : list NetflixEntity.t) :
  FetchOutcome.reply (server (World.requests w) (metadata_url id))
    = FetchOutcome.Responded response ->
  Response.ok response = false ->
  Response.json response = JS.Ok result ->
  NetflixResponse.entities result = entity :: rest ->
  (is_Some (State.error (handleSearch server id (s, w)).1)
   /\ State.data (handleSearch server id (s, w)).1 = None)
  /\ (State.error (handleBatchSearch server [id] (s, w)).1 = None
      /\ State.comparisonData (handleBatchSearch server [id] (s, w)).1 = [entity]).
Proof.
  intros Hreply Hok Hjson Hentities. split.
  - rewrite handleSearch_run. cbv zeta. rewrite Hreply, Hjson, Hok. cbn. by split.
  - rewrite handleBatchSearch_run. cbv zeta.
    cbn [take responses batch_failure omap list_omap]. unfold failure, first_entity.
    rewrite Hreply, Hjson, Hentities. cbn. by split.
Qed.

Lemma non_success_status_with_entity_witness :
  State.error (handleBatchSearch Sample.server_error_with_entity ["80057281"]
                 (State.initial, Sample.world)).1 = None
  /\ State.data (handleSearch Sample.server_error_with_entity "80057281"
                   (State.initial, Sample.world)).1 = None.
Proof.
  destruct (non_success_status_with_entity Sample.server_error_with_entity "80057281"
              State.initial Sample.world _ _ _ _ eq_refl eq_refl eq_refl eq_refl)
    as ((_ & Hdata) & (Herr & _)).
  by split.
Defined.

(** X12. Whatever is typed into the form, submitting it makes the page
    request at most four identifiers, each of them not empty, free of commas
    and of surrounding white space. *)
Theorem submit_requests (server : Server) (isBatchMode : bool) (videoId : string)
    (s : State.t) (w : World.t) :
  exists ids,
    World.requests (submit server isBatchMode videoId (s, w)).2
    = (World.requests w ++ map metadata_url ids)%list
    /\ length ids <= 4
    /\ Forall (fun id => id <> "" /\ JSString.trim id = id /\ JS.includes id "," = false) ids.
Proof.
  unfold submit, handleSubmit.
  destruct (JSString.trim videoId) as [|c r] eqn:Htrim.
  { exists []. cbn. rewrite app_nil_r. split; [reflexivity|]. split; [lia | constructor]. }
  destruct (isBatchMode || JS.includes (String c r) ",") eqn:Hbatch.
  - pose proof (batch_ids_wellformed (String c r)) as Hids.
    destruct (List.filter nonempty _) as [|id ids] eqn:Hfilter.
    { exists []. cbn. rewrite app_nil_r. split; [reflexivity|]. split; [lia | constructor]. }
    cbn [fst]. rewrite handleBatchSearch_requests.
    eexists. split; [reflexivity|]. split.
    + rewrite !length_take. lia.
    + by apply Forall_take, Forall_take.
  - cbn [fst]. rewrite handleSearch_requests. exists [String c r].
    apply orb_false_elim in Hbatch as [_ Hcomma].
    split; [reflexivity|]. split; [cbn; lia|].
    constructor; [|constructor]. split; [discriminate|]. split; [|exact Hcomma].
    rewrite <- Htrim. apply trim_idem.
Qed.

(** ** Invariants of the search history *)

Lemma filter_sublist {A} (f : A -> bool) (l : list A) : List.filter f l `sublist_of` l.
Proof.
  induction l as [|x l IH]; [constructor|].
  cbn. destruct (f x); by constructor.
Qed.

Lemma StronglySorted_sublist {A} (R : A -> A -> Prop) (l1 l2 : list A) :
  l1 `sublist_of` l2 -> StronglySorted R l2 -> StronglySorted R l1.
Proof.
  induction 1 as [|x l1 l2 Hsub IH|x l1 l2 Hsub IH]; intros Hsorted.
  - constructor.
  - apply StronglySorted_inv in Hsorted as [Hsorted Hall]. constructor; [by apply IH|].
    apply List.Forall_forall. intros y Hy. rewrite List.Forall_forall in Hall.
    apply Hall. apply list_elem_of_In. eapply elem_of_sublist; [|exact Hsub].
    by apply list_elem_of_In.
  - apply StronglySorted_inv in Hsorted as [Hsorted _]. by apply IH.
Qed.

Lemma addToHistory_rest_sublist (id : string) (prev : list SearchHistoryItem.t) :
  firstn 19 (List.filter (other_id id) prev) `sublist_of` prev.
Proof. etrans; [apply sublist_take | apply filter_sublist]. Qed.

Lemma other_id_not_in (id : string) (prev : list SearchHistoryItem.t) :
  ~ In id (map SearchHistoryItem.id (firstn 19 (List.filter (other_id id) prev))).
Proof.
  intros (item & Hid & Hin)%in_map_iff.
  apply list_elem_of_In in Hin. pose proof (elem_of_sublist _ _ _ Hin (sublist_take _ _)) as Hin'.
  apply list_elem_of_In, filter_In in Hin' as [_ Hother].
  unfold other_id in Hother. rewrite Hid, String.eqb_refl in Hother. discriminate.
Qed.

(** X13. Recording a search keeps the history well-formed: never more than
    20 entries; identifiers that were distinct stay distinct; and, when the
    clock has not gone back behind a recorded time, a list ordered newest
    first stays ordered newest first. *)
Theorem addToHistory_invariant (id title : string) (s : State.t) (w : World.t) :
  let before := State.history s in
  let after := State.history (addToHistory id title (s, w)).2.1 in
  length after <= 20
  /\ (NoDup (map SearchHistoryItem.id before) -> NoDup (map SearchHistoryItem.id after))
  /\ (Forall (fun item => (SearchHistoryItem.timestamp item <= World.Date_now w)%Z) before ->
      newest_first before ->
      newest_first after
      /\ Forall (fun item => (SearchHistoryItem.timestamp item <= World.Date_now w)%Z) after).
Proof.
  cbv zeta. rewrite addToHistory_history, addToHistory_updated_cons.
  pose proof (addToHistory_rest_sublist id (State.history s)) as Hsub.
  split; [cbn [length]; rewrite length_take; lia|]. split.
  - intros Hnodup. cbn [map]. apply NoDup_cons. split.
    + rewrite list_elem_of_In. apply other_id_not_in.
    + eapply sublist_NoDup; [exact Hnodup|].
      by apply (fmap_sublist SearchHistoryItem.id).
  - intros Hpast Hsorted.
    assert (Hrest : Forall (fun item => (SearchHistoryItem.timestamp item <= World.Date_now w)%Z)
                      (firstn 19 (List.filter (other_id id) (State.history s)))).
    { apply List.Forall_forall. intros item Hin. rewrite List.Forall_forall in Hpast.
      apply Hpast, list_elem_of_In. eapply elem_of_sublist; [|exact Hsub].
      by apply list_elem_of_In. }
    split.
    + constructor; [by eapply StronglySorted_sublist | exact Hrest].
    + constructor; [cbn; lia | exact Hrest].
Qed.

Lemma addToHistory_invariant_witness :
  NoDup (map SearchHistoryItem.id
           (State.history (addToHistory "7" "Seven again" (Sample.full_state, Sample.world)).2.1))
  /\ newest_first
       (State.history (addToHistory "7" "Seven again" (Sample.full_state, Sample.world)).2.1).
Proof.
  destruct (addToHistory_invariant "7" "Seven again" Sample.full_state Sample.world)
    as (_ & Hnodup & Horder).
  split.
  - apply Hnodup. apply NoDup_ListNoDup. vm_compute.
    repeat (apply List.NoDup_cons;
            [intros Hin; cbn in Hin;
             repeat (destruct Hin as [Hin|Hin]; [discriminate Hin|]); exact Hin|]).
    apply List.NoDup_nil.
  - apply Horder.
    + cbv -[Z.le]. repeat (constructor; [lia|]). constructor.
    + unfold newest_first. cbv -[Z.le].
      repeat (constructor; [|repeat (constructor; [lia|]); constructor]).
      constructor.
Defined.

(** ** What the hooks persist *)

Lemma setToStorage_unchanged {T} `{Stringify T} (st : Storage.t) (key : string) (v : T) :
  Storage.disabled st = true
  \/ (exists text, JSON_stringify v = JS.Ok text
                   /\ Storage.quota st < Storage.usage (<[key := text]> (Storage.items st))) ->
  setToStorage st key v = st.
Proof.
  unfold setToStorage, setToStorage_try, Storage.setItem.
  intros [Hd | (text & Htext & Hfull)].
  - rewrite Hd. by destruct (JSON_stringify v).
  - rewrite Htext. unfold mbind, Result_bind, JS.bind.
    destruct (Storage.disabled st); [reflexivity|].
    apply Nat.ltb_lt in Hfull. by rewrite Hfull.
Qed.

(** X14. Recording a search updates the in-memory history whether or not
    the store takes the write.  When the store is enabled and the new text
    fits the quota, the history key holds the JSON text of exactly the new
    list and every other key is as before; when the store is disabled or
    the text does not fit, the store is unchanged, so memory and store
    differ from then on. *)
Theorem addToHistory_persistence (id title : string) (s : State.t) (w : World.t) :
  let sw' := addToHistory id title (s, w) in
  let updated := addToHistory_updated (World.Date_now w) id title (State.history s) in
  let text := Json.array (map Json.historyItem updated) in
  let store := World.localStorage w in
  let store' := World.localStorage sw'.2.2 in
  State.history sw'.2.1 = updated
  /\ (Storage.disabled store = false ->
      Storage.usage (<[STORAGE_KEYS.HISTORY := text]> (Storage.items store))
        <= Storage.quota store ->
      Storage.items store' !! STORAGE_KEYS.HISTORY = Some text
      /\ forall key, key <> STORAGE_KEYS.HISTORY ->
           Storage.items store' !! key = Storage.items store !! key)
  /\ (Storage.disabled store = true
      \/ Storage.quota store
         < Storage.usage (<[STORAGE_KEYS.HISTORY := text]> (Storage.items store)) ->
      store' = store).
Proof.
  cbv zeta. split; [reflexivity|].
  cbn [addToHistory snd World.localStorage World.set_localStorage].
  split.
  - intros Hd Hfit.
    erewrite setToStorage_stored; [|exact Hd|reflexivity|exact Hfit].
    split; [apply lookup_insert_eq|]. intros key Hkey. by apply lookup_insert_ne.
  - intros [Hd|Hfull]; apply setToStorage_unchanged; [by left|].
    right. eexists. split; [reflexivity | exact Hfull].
Qed.

Lemma addToHistory_persistence_witness :
  Storage.items
    (World.localStorage (addToHistory "80057281" "Stranger Things"
                           (State.initial, Sample.world)).2.2)
    !! STORAGE_KEYS.HISTORY
  = Some (Json.array
            [Json.historyItem {| SearchHistoryItem.id := "80057281";
                                 SearchHistoryItem.title := "Stranger Things";
                                 SearchHistoryItem.timestamp := 1700000000000 |}])
  /\ World.localStorage
       (addToHistory "80057281" "Stranger Things"
          (State.initial, World.set_localStorage Sample.storage_light Sample.world)).2.2
     = Sample.storage_light.
Proof.
  split.
  - destruct (addToHistory_persistence "80057281" "Stranger Things" State.initial Sample.world)
      as (_ & Hstored & _).
    apply Hstored; [reflexivity | vm_compute; lia].
  - destruct (addToHistory_persistence "80057281" "Stranger Things" State.initial
                (World.set_localStorage Sample.storage_light Sample.world))
      as (_ & _ & Hfull).
    apply Hfull. right. vm_compute. lia.
Defined.

(** ** More on the analytics *)

Lemma take_app_take {A} (n : nat) (l m : list A) :
  take n (l ++ take n m) = take n (l ++ m).
Proof. rewrite !take_app, take_take. f_equal. f_equal. lia. Qed.

Lemma step_recent (calls : list (string * Z)) (a : AnalyticsData.t) :
  calls <> [] ->
  AnalyticsData.recentSearches (fold_left step calls a) =
    take 10 (rev (map recent_of calls) ++ AnalyticsData.recentSearches a).
Proof.
  induction calls as [|c calls IH] using rev_ind; [congruence|]. intros _.
  rewrite fold_left_app, map_app, rev_app_distr. cbn [fold_left map rev app].
  unfold step at 1. cbn [trackSearch_updated AnalyticsData.recentSearches].
  unfold JS.slice_to. fold (recent_of c).
  destruct calls as [|c0 calls]; [reflexivity|].
  rewrite IH by discriminate.
  apply (take_app_take 10 [recent_of c]).
Qed.

Lemma sum_bounds (lo hi : Z) (l : list Z) (z : Z) :
  Forall (fun x => lo <= x <= hi)%Z l ->
  (z + Z.of_nat (length l) * lo <= fold_left Z.add l z <= z + Z.of_nat (length l) * hi)%Z.
Proof.
  intros Hall. revert z. induction Hall as [|x l Hx _ IH]; intros z.
  - cbn. lia.
  - cbn [fold_left length]. specialize (IH (z + x)%Z). lia.
Qed.

Lemma Math_round_quotient (sum : Z) (n : positive) :
  JS.Math_round (inject_Z sum / inject_Z (Zpos n)) = ((2 * sum + Zpos n) / (2 * Zpos n))%Z.
Proof.
  unfold JS.Math_round.
  assert (Heq : (inject_Z sum / inject_Z (Zpos n) + (1 # 2) == (2 * sum + Zpos n) # (2 * n))%Q).
  { rewrite Qdiv_inject. unfold Qeq, Qplus. cbn [Qnum Qden]. lia. }
  rewrite (Qfloor_comp _ _ Heq). reflexivity.
Qed.

Lemma average_bounds (lo hi : Z) (l : list Z) :
  l <> [] ->
  Forall (fun x => lo <= x <= hi)%Z l ->
  (lo <= JS.Math_round (average l) <= hi)%Z.
Proof.
  intros Hne Hall. unfold average.
  pose proof (sum_bounds lo hi l 0 Hall) as Hsum.
  destruct (Z.of_nat (length l)) as [|n|n] eqn:Hn;
    [destruct l; [congruence | discriminate] | | lia].
  rewrite Math_round_quotient. split.
  - apply Z.div_le_lower_bound; lia.
  - apply Z.lt_succ_r, Z.div_lt_upper_bound; lia.
Qed.

(** X15. After any non-empty run of calls to [trackSearch], the recent list
    is the calls newest first, followed by what was there before, cut to 10;
    it never holds more than 10 entries. *)
Theorem trackSearch_recent (calls : list (string * Z)) (s : State.t) (w : World.t) :
  calls <> [] ->
  let a := State.analytics (trackAll calls (s, w)).1 in
  AnalyticsData.recentSearches a =
    take 10 (rev (map recent_of calls)
             ++ AnalyticsData.recentSearches (State.analytics s))
  /\ length (AnalyticsData.recentSearches a) <= 10.
Proof.
  intros Hne a. subst a. rewrite trackAll_analytics, step_recent by exact Hne.
  split; [reflexivity|]. rewrite length_take. lia.
Qed.

Lemma trackSearch_recent_witness :
  take 3 (AnalyticsData.recentSearches
            (State.analytics (trackAll Sample.calls_one (State.initial, Sample.world)).1))
  = [ {| RecentSearch.id := "81767635"; RecentSearch.time := 1 |};
      {| RecentSearch.id := "80057281"; RecentSearch.time := 0 |};
      {| RecentSearch.id := "80057281"; RecentSearch.time := 0 |} ].
Proof.
  destruct (trackSearch_recent Sample.calls_one State.initial Sample.world) as [Hrecent _].
  { discriminate. }
  rewrite Hrecent. reflexivity.
Defined.

(** X16. After a call to [trackSearch] the window holds between 1 and 50
    samples, ends with the sample just given, and the reported average lies
    between the smallest and the largest sample of the window. *)
Theorem trackSearch_average_bounds (id : string) (responseTime : Z) (s : State.t) (w : World.t)
    (lo hi : Z) :
  let a := State.analytics (trackSearch id responseTime (s, w)).2.1 in
  Forall (fun x => lo <= x <= hi)%Z (AnalyticsData.searchTimes a) ->
  1 <= length (AnalyticsData.searchTimes a) <= 50
  /\ last (AnalyticsData.searchTimes a) = Some responseTime
  /\ (lo <= AnalyticsData.avgResponseTime a <= hi)%Z.
Proof.
  cbv zeta. cbn [trackSearch snd fst State.analytics State.set_analytics].
  cbn [trackSearch_updated AnalyticsData.searchTimes AnalyticsData.avgResponseTime].
  set (window := JS.slice_last 50 _). intros Hall.
  assert (Hlast : last window = Some responseTime) by (apply slice_last_snoc; lia).
  assert (Hlen : 1 <= length window <= 50).
  { split.
    - destruct window; [discriminate | cbn; lia].
    - subst window. unfold JS.slice_last. rewrite length_drop, length_app. cbn. lia. }
  split; [exact Hlen|]. split; [exact Hlast|].
  apply average_bounds; [|exact Hall]. intros Hnil. rewrite Hnil in Hlen. cbn in Hlen. lia.
Qed.

Lemma trackSearch_average_bounds_witness :
  (0 <= AnalyticsData.avgResponseTime
          (State.analytics (trackSearch "80057281" 7 (Sample.full_state, Sample.world)).2.1)
     <= 7)%Z.
Proof.
  apply (trackSearch_average_bounds "80057281" 7 Sample.full_state Sample.world 0 7).
  cbv -[Z.le]. repeat (constructor; [lia|]). constructor.
Defined.

(** ** Round trips through the store *)

Section StorageRoundTrip.

Context {T : Type} `{Parse T} `{Stringify T}.

Lemma setToStorage_read_back (st : Storage.t) (key text : string) (v d : T) :
  Storage.disabled st = false ->
  JSON_stringify v = JS.Ok text ->
  text <> "" ->
  Storage.usage (<[key := text]> (Storage.items st)) <= Storage.quota st ->
  JSON_parse text = JS.Ok v ->
  setToStorage st key v
  = {| Storage.disabled := Storage.disabled st; Storage.quota := Storage.quota st;
       Storage.items := <[key := text]> (Storage.items st) |}
  /\ getFromStorage (setToStorage st key v) key d = v.
Proof.
  intros Hd Htext Hne Hfit Hparse.
  assert (Hst : setToStorage st key v
                = {| Storage.disabled := Storage.disabled st; Storage.quota := Storage.quota st;
                     Storage.items := <[key := text]> (Storage.items st) |}).
  { unfold setToStorage, setToStorage_try, Storage.setItem.
    rewrite Htext. unfold mbind, Result_bind, JS.bind. rewrite Hd.
    apply Nat.ltb_ge in Hfit. by rewrite Hfit. }
  split; [exact Hst|]. rewrite Hst.
  apply (getFromStorage_parsed _ key text); try done.
  cbn. apply lookup_insert_eq.
Qed.

(** X17. A value written with [setToStorage] is the value read back with
    [getFromStorage] under the same key, provided the store took the write
    (enabled, within quota) and the codec decodes what it encoded to a
    non-empty text; reading any other key gives what it gave before the
    write. *)
Theorem storage_round_trip (st : Storage.t) (key text : string) (v d : T) :
  Storage.disabled st = false ->
  JSON_stringify v = JS.Ok text ->
  text <> "" ->
  Storage.usage (<[key := text]> (Storage.items st)) <= Storage.quota st ->
  JSON_parse text = JS.Ok v ->
  getFromStorage (setToStorage st key v) key d = v
  /\ forall other, other <> key ->
       getFromStorage (setToStorage st key v) other d = getFromStorage st other d.
Proof.
  intros Hd Htext Hne Hfit Hparse.
  destruct (setToStorage_read_back st key text v d Hd Htext Hne Hfit Hparse) as [Hst Hread].
  split; [exact Hread|]. rewrite Hst.
  intros other Hother. unfold getFromStorage, getFromStorage_try, Storage.getItem.
  cbn [Storage.disabled Storage.items]. rewrite Hd.
  unfold mbind, Result_bind, JS.bind. by rewrite lookup_insert_ne.
Qed.

End StorageRoundTrip.

Lemma storage_round_trip_witness :
  @getFromStorage _ Sample.parse_string
    (@setToStorage _ Sample.stringify_string Sample.storage STORAGE_KEYS.THEME "light")
    STORAGE_KEYS.THEME "dark" = "light".
Proof.
  apply (@storage_round_trip _ Sample.parse_string Sample.stringify_string
           Sample.storage STORAGE_KEYS.THEME (Json.str "light") "light" "dark");
    try reflexivity; [discriminate | vm_compute; lia].
Defined.

(** ** Theme *)

(** X18. Toggling the theme twice gives the theme back.  The theme stored by
    the effect is the theme a later start reads, provided the store took the
    write and the codec decodes the text of the theme's name; a disabled
    store, a missing key, and any stored value that does not decode to
    "light", or does not decode at all, start the page in the dark theme. *)
Theorem theme_round_trip `{Parse string} `{Stringify string}
    (theme : Theme) (page : option string * Storage.t) (text : string) :
  (toggleTheme (toggleTheme theme) = theme /\ toggleTheme theme <> theme)
  /\ (Storage.disabled page.2 = false ->
      JSON_stringify (theme_name theme) = JS.Ok text ->
      text <> "" ->
      Storage.usage (<[STORAGE_KEYS.THEME := text]> (Storage.items page.2))
        <= Storage.quota page.2 ->
      JSON_parse text = JS.Ok (theme_name theme) ->
      (useTheme_effect theme page).1 = Some (theme_name theme)
      /\ useTheme_initial (useTheme_effect theme page).2 = theme)
  /\ (Storage.disabled page.2 = true
      \/ Storage.items page.2 !! STORAGE_KEYS.THEME = None
      \/ (exists stored e,
            Storage.items page.2 !! STORAGE_KEYS.THEME = Some stored
            /\ JSON_parse stored = JS.Throw e)
      \/ (exists stored value,
            Storage.items page.2 !! STORAGE_KEYS.THEME = Some stored
            /\ JSON_parse stored = JS.Ok value /\ value <> "light") ->
      useTheme_initial page.2 = dark).
Proof.
  split; [by destruct theme|]. split.
  - intros Hd Htext Hne Hfit Hparse. split; [reflexivity|].
    unfold useTheme_initial, useTheme_effect. cbn [snd].
    destruct (setToStorage_read_back page.2 STORAGE_KEYS.THEME text (theme_name theme) "dark"
                Hd Htext Hne Hfit Hparse) as [_ ->].
    by destruct theme.
  - unfold useTheme_initial, getFromStorage, getFromStorage_try, Storage.getItem.
    intros [Hd | Hcase].
    + by rewrite Hd.
    + destruct (Storage.disabled page.2); [reflexivity|].
      unfold mbind, Result_bind, JS.bind.
      destruct Hcase as [-> | [(stored & e & -> & Hparse)
                              | (stored & value & -> & Hparse & Hvalue)]]; [reflexivity| |].
      * destruct stored; [reflexivity|]. by rewrite Hparse.
      * destruct stored; [reflexivity|]. rewrite Hparse. cbn.
        by destruct (String.eqb_spec value "light").
Qed.

Lemma theme_round_trip_witness :
  @useTheme_initial Sample.parse_string
    (@useTheme_effect Sample.stringify_string light (None, Sample.storage)).2 = light
  /\ @useTheme_initial Sample.parse_string Sample.storage_garbled = dark.
Proof.
  destruct (@theme_round_trip Sample.parse_string Sample.stringify_string
              light (None, Sample.storage) (Json.str "light")) as (_ & Hback & _).
  destruct (@theme_round_trip Sample.parse_string Sample.stringify_string
              dark (None, Sample.storage_garbled) "") as (_ & _ & Hdark).
  split.
  - apply Hback; try reflexivity; [discriminate | vm_compute; lia].
  - apply Hdark. right. right. left. eexists _, _. split; reflexivity.
Defined.

(** ** Keyboard shortcuts *)

(** X19. One key event runs at most one shortcut.  The default action is
    prevented exactly when the search is focused or the theme toggled, never
    for Escape; without Ctrl or Cmd only Escape does anything; and Ctrl or
    Cmd with an upper-case K does not focus the search. *)
Theorem handleKeyDown_exclusive (e : KeyboardEvent.t) :
  let prevented := (handleKeyDown e).1 in
  let ran := (handleKeyDown e).2 in
  length ran <= 1
  /\ (prevented = true <-> ran = [onFocusSearch] \/ ran = [onToggleTheme])
  /\ (KeyboardEvent.metaKey e || KeyboardEvent.ctrlKey e = false ->
      ran = if String.eqb (KeyboardEvent.key e) "Escape" then [onEscape] else [])
  /\ (KeyboardEvent.key e = "K" -> ran = []).
Proof.
  destruct e as [meta ctrl shift key]. cbv zeta. unfold handleKeyDown.
  cbn [KeyboardEvent.metaKey KeyboardEvent.ctrlKey KeyboardEvent.shiftKey KeyboardEvent.key
       fst snd].
  destruct (String.eqb_spec key "k") as [->|Hk];
    [|destruct (String.eqb_spec key "Escape") as [->|Hesc];
      [|destruct (String.eqb_spec key "L") as [->|HL]]];
    destruct meta, ctrl, shift; cbn;
    (split; [lia|]); (split; [split; [try discriminate; auto | intros [?|?]; congruence]|]);
    (split; [try discriminate; auto | try discriminate; auto]).
Qed.

Lemma handleKeyDown_exclusive_witness :
  (handleKeyDown {| KeyboardEvent.metaKey := false; KeyboardEvent.ctrlKey := false;
                    KeyboardEvent.shiftKey := true; KeyboardEvent.key := "Escape" |}).2
  = [onEscape]
  /\ (handleKeyDown {| KeyboardEvent.metaKey := false; KeyboardEvent.ctrlKey := true;
                       KeyboardEvent.shiftKey := true; KeyboardEvent.key := "K" |}).2 = [].
Proof.
  split.
  - by apply (handleKeyDown_exclusive
                {| KeyboardEvent.metaKey := false; KeyboardEvent.ctrlKey := false;
                   KeyboardEvent.shiftKey := true; KeyboardEvent.key := "Escape" |}).
  - by apply (handleKeyDown_exclusive
                {| KeyboardEvent.metaKey := false; KeyboardEvent.ctrlKey := true;
                   KeyboardEvent.shiftKey := true; KeyboardEvent.key := "K" |}).
Defined.

(** ** Reloading the page, and going back to the search *)

(** X20. Opening the page on the URL that a search for a non-empty
    identifier left behind requests that identifier again.  Going back to the
    search clears data, comparison and error, closes the lightbox and the
    export menu, bumps the reset counter, leaves the search history and the
    analytics alone, and pushes one more session-history entry whose URL has
    no identifier, so that opening the page on it requests nothing. *)
Theorem reload_after_search_and_back (server : Server) (id : string)
    (ui : option (string * string) * bool * Z) (s fresh : State.t) (w : World.t) :
  (id <> "" ->
   World.requests (App_load server (fresh, (handleSearch server id (s, w)).2)).2
   = (World.requests w ++ [metadata_url id; metadata_url id])%list)
  /\ (let after := handleBack ui (s, w) in
      after.1 = (None, false, (ui.2 + 1)%Z)
      /\ State.data after.2.1 = None /\ State.comparisonData after.2.1 = []
      /\ State.error after.2.1 = None
      /\ State.history after.2.1 = State.history s
      /\ State.analytics after.2.1 = State.analytics s
      /\ History.length (World.session after.2.2) = length (History.back (World.session w)) + 2
      /\ getVideoIdFromURL after.2.2 = ""
      /\ App_load server (fresh, after.2.2) = (fresh, after.2.2)).
Proof.
  split.
  - intros Hid. unfold App_load. cbn [snd].
    assert (Hurl : getVideoIdFromURL (handleSearch server id (s, w)).2 = id).
    { rewrite handleSearch_run. cbv zeta.
      pose proof (getVideoIdFromURL_written id w) as Hwritten.
      destruct (FetchOutcome.reply _) as [m|response]; [exact Hwritten|].
      destruct (Response.json response) as [result|e]; [|exact Hwritten].
      destruct (Response.ok response); [|exact Hwritten].
      destruct (NetflixResponse.entities result); exact Hwritten. }
    rewrite Hurl. destruct id as [|c r]; [congruence|].
    rewrite !handleSearch_requests, <- app_assoc. reflexivity.
  - cbv zeta. unfold handleBack, App_load. cbn [fst snd].
    rewrite getVideoIdFromURL_written. repeat split.
    unfold History.length. cbn. lia.
Qed.

Lemma reload_after_search_and_back_witness :
  World.requests
    (App_load Sample.server_ok
       (State.initial,
        (handleSearch Sample.server_ok "80057281" (State.initial, Sample.world)).2)).2
  = [metadata_url "80057281"; metadata_url "80057281"].
Proof.
  apply (reload_after_search_and_back Sample.server_ok "80057281" (None, false, 0%Z)
           State.initial State.initial Sample.world).
  discriminate.
Defined.

(** ** Qualities in the Markdown export *)

Lemma array_includes_In (l : list string) (x : string) :
  JS.array_includes l x = true <-> In x l.
Proof.
  unfold JS.array_includes. rewrite existsb_exists. split.
  - intros (y & Hy & Heq). apply String.eqb_eq in Heq. by subst.
  - intros Hx. exists x. split; [exact Hx | apply String.eqb_refl].
Qed.

(** X21. The Markdown export depends on the playback badges only through
    which of the known capability keys they contain: two badge lists that
    agree on the known keys (whatever their order, repetitions and unknown
    badges, a missing list counting as empty) give the same export. *)
Theorem exportAsMarkdown_badges (formatDate : string -> string) (entity : NetflixEntity.t)
    (badges badges' : option (list string)) :
  (forall cap, In cap QUALITY_CAPABILITIES ->
     (In (fst cap) (default [] badges) <-> In (fst cap) (default [] badges'))) ->
  exportAsMarkdown formatDate (with_badges badges entity)
  = exportAsMarkdown formatDate (with_badges badges' entity).
Proof.
  intros Hsame. unfold exportAsMarkdown. cbn [with_badges NetflixEntity.playbackBadges
    NetflixEntity.title NetflixEntity.latestYear NetflixEntity.videoId
    NetflixEntity.__typename NetflixEntity.runtimeSec NetflixEntity.isAvailable
    NetflixEntity.availabilityStartTime NetflixEntity.contentAdvisory
    NetflixEntity.textEvidence].
  assert (Hfilter :
    List.filter (fun cap => JS.array_includes (default [] badges) (fst cap))
      QUALITY_CAPABILITIES
    = List.filter (fun cap => JS.array_includes (default [] badges') (fst cap))
        QUALITY_CAPABILITIES).
  { apply filter_ext_in. intros cap Hcap. specialize (Hsame cap Hcap).
    rewrite <- !array_includes_In in Hsame.
    destruct (JS.array_includes (default [] badges) (fst cap)),
             (JS.array_includes (default [] badges') (fst cap)); try reflexivity.
    - symmetry. by apply Hsame.
    - by apply Hsame. }
  by rewrite Hfilter.
Qed.

Lemma exportAsMarkdown_badges_witness :
  exportAsMarkdown Sample.formatDate
    (with_badges (Some ["AUDIO_SPATIAL"; "VIDEO_8K"; "VIDEO_HD"; "VIDEO_HD"])
       (Sample.entity 5400))
  = exportAsMarkdown Sample.formatDate (Sample.entity 5400).
Proof.
  apply (exportAsMarkdown_badges Sample.formatDate (Sample.entity 5400)
           (Some ["AUDIO_SPATIAL"; "VIDEO_8K"; "VIDEO_HD"; "VIDEO_HD"])
           (Some ["VIDEO_HD"; "AUDIO_SPATIAL"])).
  intros cap Hcap. cbn in Hcap. cbn [default].
  repeat (destruct Hcap as [<-|Hcap]; [cbn; intuition congruence|]). destruct Hcap.
Defined.

(** ** Clearing and refreshing the history *)

(** X22. Clearing the history empties the in-memory list, so that the
    autocomplete shows nothing for any query.  On an enabled store with room
    for two more characters the history key then holds the text of the empty
    array and the other keys are untouched; on a disabled store the stored
    history stays what it was. *)
Theorem clearHistory_effect (unicode_toLowerCase : string -> string)
    (s : State.t) (w : World.t) (query : string) :
  let sw' := clearHistory (s, w) in
  State.history sw'.2.1 = []
  /\ filteredHistory unicode_toLowerCase (State.history sw'.2.1) query = []
  /\ (Storage.disabled (World.localStorage w) = false ->
      Storage.usage (<[STORAGE_KEYS.HISTORY := "[]"]> (Storage.items (World.localStorage w)))
        <= Storage.quota (World.localStorage w) ->
      Storage.items (World.localStorage sw'.2.2) !! STORAGE_KEYS.HISTORY = Some "[]"
      /\ forall key, key <> STORAGE_KEYS.HISTORY ->
           Storage.items (World.localStorage sw'.2.2) !! key
           = Storage.items (World.localStorage w) !! key)
  /\ (Storage.disabled (World.localStorage w) = true ->
      World.localStorage sw'.2.2 = World.localStorage w).
Proof.
  cbv zeta. split; [reflexivity|]. split; [reflexivity|].
  cbn [clearHistory snd World.localStorage World.set_localStorage]. split.
  - intros Hd Hfit.
    erewrite setToStorage_stored; [|exact Hd|reflexivity|exact Hfit].
    split; [apply lookup_insert_eq|]. intros key Hkey. by apply lookup_insert_ne.
  - intros Hd. apply setToStorage_unchanged. by left.
Qed.

Lemma clearHistory_effect_witness :
  Storage.items (World.localStorage (clearHistory (Sample.full_state, Sample.world)).2.2)
    !! STORAGE_KEYS.HISTORY = Some "[]".
Proof.
  destruct (clearHistory_effect Sample.latin1_toLowerCase Sample.full_state Sample.world "")
    as (_ & _ & Hstored & _).
  apply Hstored; [reflexivity | vm_compute; lia].
Defined.

Lemma filter_other_length (id : string) (h : list SearchHistoryItem.t) :
  NoDup (map SearchHistoryItem.id h) ->
  In id (map SearchHistoryItem.id h) ->
  S (length (List.filter (other_id id) h)) = length h.
Proof.
  induction h as [|x h IH]; intros Hnodup Hin; [destruct Hin|].
  cbn [map] in Hnodup. apply NoDup_cons in Hnodup as [Hx Hnodup].
  cbn [List.filter]. unfold other_id at 1.
  destruct (String.eqb_spec (SearchHistoryItem.id x) id) as [Heq|Hne]; cbn [negb length].
  - rewrite filter_other_all; [reflexivity|].
    apply List.Forall_forall. intros y Hy Hyid. apply Hx.
    rewrite Heq, <- Hyid. apply list_elem_of_In, in_map, Hy.
  - f_equal. apply IH; [exact Hnodup|].
    destruct Hin as [Hin|Hin]; [congruence | exact Hin].
Qed.

(** X23. Searching again, successfully, for an identifier that is already
    in a history of distinct identifiers and at most 20 entries moves it to
    the front and changes nothing else about the list: the length is the
    same and so are the identifiers in it. *)
Theorem search_again_refreshes (server : Server) (id : string) (s : State.t) (w : World.t) :
  let before := State.history s in
  let after := State.history (handleSearch server id (s, w)).1 in
  State.error (handleSearch server id (s, w)).1 = None ->
  NoDup (map SearchHistoryItem.id before) ->
  In id (map SearchHistoryItem.id before) ->
  length before <= 20 ->
  length after = length before
  /\ head (map SearchHistoryItem.id after) = Some id
  /\ tail after = List.filter (other_id id) before
  /\ forall x, In x (map SearchHistoryItem.id after) <-> In x (map SearchHistoryItem.id before).
Proof.
  cbv zeta. rewrite handleSearch_run. cbv zeta.
  destruct (FetchOutcome.reply _) as [m|response]; [discriminate|].
  destruct (Response.json response) as [result|e]; [|discriminate].
  destruct (Response.ok response); [|discriminate].
  destruct (NetflixResponse.entities result) as [|entity rest]; [discriminate|].
  intros _ Hnodup Hin Hlen.
  cbn [fst State.history State.set_isLoading State.set_data State.set_analytics
       State.set_history].
  rewrite addToHistory_updated_cons.
  pose proof (filter_other_length id (State.history s) Hnodup Hin) as Hfilter.
  rewrite take_ge by lia.
  split; [cbn [length]; exact Hfilter|]. split; [reflexivity|]. split; [reflexivity|].
  intros x. cbn [map SearchHistoryItem.id]. split.
  - intros [<-|Hx]; [exact Hin|].
    apply in_map_iff in Hx as (item & <- & Hitem). apply in_map.
    by apply filter_In in Hitem as [Hitem _].
  - intros Hx. destruct (String.eqb_spec x id) as [->|Hne]; [by left|]. right.
    apply in_map_iff in Hx as (item & <- & Hitem). apply in_map, filter_In.
    split; [exact Hitem|]. unfold other_id.
    by destruct (String.eqb_spec (SearchHistoryItem.id item) id).
Qed.

Lemma search_again_refreshes_witness :
  length (State.history (handleSearch Sample.server_ok "7" (Sample.full_state, Sample.world)).1)
  = 20.
Proof.
  destruct (search_again_refreshes Sample.server_ok "7" Sample.full_state Sample.world)
    as (Hlength & _).
  - reflexivity.
  - apply NoDup_ListNoDup. vm_compute.
    repeat (apply List.NoDup_cons;
            [intros Hin; cbn in Hin;
             repeat (destruct Hin as [Hin|Hin]; [discriminate Hin|]); exact Hin|]).
    apply List.NoDup_nil.
  - vm_compute. do 13 right. by left.
  - vm_compute. lia.
  - exact Hlength.
Defined.

(** ** Rate-limit headers on the single search *)



(** ** Export menu *)

(** X25. Exporting always closes the menu and shows exactly one message:
    success with the clipboard holding the export text when the clipboard
    takes the write, "Failed to export" with the clipboard untouched when it
    does not.  Sharing closes the menu too and puts the link made of the
    origin and the entity's numeric identifier on the clipboard, but says
    nothing at all when the clipboard refuses. *)
Theorem ExportMenu_handlers (exportAsJSON : NetflixEntity.t -> string)
    (formatDate : string -> string) (origin : string) (entity : NetflixEntity.t)
    (type : ExportType) (m : Clipboard.t * list Toast * bool) :
  let exported := handleExport exportAsJSON formatDate entity type m in
  let shared := handleShare origin entity m in
  let text := match type with
              | json => exportAsJSON entity
              | markdown => exportAsMarkdown formatDate entity
              end in
  exported.2 = false /\ shared.2 = false
  /\ (if Clipboard.permitted m.1.1
      then Clipboard.content exported.1.1 = Some text
           /\ exported.1.2
              = (m.1.2 ++ [toast_success ("Exported as " +:+ ExportType_upper type)])%list
           /\ Clipboard.content shared.1.1
              = Some (origin +:+ "?v=" +:+ JS.toString (NetflixEntity.videoId entity))
           /\ shared.1.2 = (m.1.2 ++ [toast_success "Share link copied"])%list
      else exported.1.1 = m.1.1
           /\ exported.1.2 = (m.1.2 ++ [toast_error "Failed to export"])%list
           /\ shared.1.1 = m.1.1
           /\ shared.1.2 = m.1.2).
Proof.
  destruct m as [[c toasts] open]. cbv zeta.
  unfold handleExport, handleShare, copyToClipboard, Clipboard.writeText. cbn [fst snd].
  destruct (Clipboard.permitted c); cbn; by repeat split.
Qed.
